(** * UniAI: a shallow embedding of the provider-unification layer

    The development follows the layout of the Python package:

    - [uniai/core/types.py]      roles, messages, responses, stream chunks;
    - [uniai/context/memory.py]  the bounded conversation memory;
    - [uniai/core/config.py]     provider settings and their validation;
    - [uniai/exceptions.py]      the error taxonomy;
    - [uniai/core/base.py], [uniai/providers/*.py]  the adapters;
    - [uniai/providers/__init__.py]  the provider registry;
    - [uniai/client.py]          the [UniAI] facade.

    Python [int] is [Z], [str] is [string], [Optional[T]] is [option T],
    a [list] is a [list].  Python [float] settings are only stored, copied
    and range-checked by this code; they are carried as rationals [Q].
    Code that raises returns a [Res]; code that mutates an object threads it
    explicitly, and a raise keeps the mutations made before it. *)

From Stdlib Require Import ZArith QArith Lia Ascii String.
From stdpp Require Import base list strings.

Local Open Scope Z_scope.
Local Open Scope string_scope.
Local Open Scope list_scope.

(** ** Python helpers *)

(** Truthiness of an [Optional[str]]: [None] and the empty string are falsy. *)
Definition truthy (o : option string) : bool :=
  match o with
  | Some s => negb (String.eqb s "")
  | None => false
  end.

(** [a or b] on an [Optional[str]] left operand and a [str] right operand. *)
Definition str_or (a : option string) (b : string) : string :=
  match a with
  | Some s => if String.eqb s "" then b else s
  | None => b
  end.

(** [str.lower()], on the ASCII range: [A]..[Z] are mapped to [a]..[z] and
    every other byte is left alone.  This is Python's folding on strings of
    ASCII characters ([is_ascii] below); Python also folds letters outside
    ASCII, which is not modelled, so the statements that compare names up to
    case are about ASCII names. *)
Definition lower_ascii (c : ascii) : ascii :=
  let n := Ascii.N_of_ascii c in
  if ((65 <=? n) && (n <=? 90))%N then Ascii.ascii_of_N (n + 32) else c.

Fixpoint lower (s : string) : string :=
  match s with
  | EmptyString => EmptyString
  | String c s' => String (lower_ascii c) (lower s')
  end.

(** The entry a truthy [Optional[str]] contributes to a list that is being
    built: [if o: result.append(f(o))]. *)
Definition if_truthy {A} (o : option string) (f : string -> A) : list A :=
  match o with
  | Some s => if String.eqb s "" then [] else [f s]
  | None => []
  end.

(** [s.isascii()]: every character of the string is in the ASCII range. *)
Fixpoint is_ascii (s : string) : bool :=
  match s with
  | EmptyString => true
  | String c s' => (Ascii.N_of_ascii c <? 128)%N && is_ascii s'
  end.

(** [sep.join(parts)]. *)
Definition join (sep : string) (parts : list string) : string :=
  String.concat sep parts.

(** [l[n:]] for an [int] [n] that is not negative. *)
Definition slice_from {A} (n : Z) (l : list A) : list A := drop (Z.to_nat n) l.

(** [len(l)] as a Python [int]. *)
Definition len {A} (l : list A) : Z := Z.of_nat (length l).

(** ** [uniai/core/types.py] *)

Inductive Role := SYSTEM | USER | ASSISTANT.

Definition Role_value (r : Role) : string :=
  match r with
  | SYSTEM => "system"
  | USER => "user"
  | ASSISTANT => "assistant"
  end.

Record Message := mkMessage { role : Role; content : string }.

(** The [{"role": ..., "content": ...}] dictionary of the wire format. *)
Record WireMessage := mkWire { wire_role : string; wire_content : string }.

Definition to_dict (m : Message) : WireMessage :=
  {| wire_role := Role_value (role m); wire_content := content m |}.

Record Usage := mkUsage
  { prompt_tokens : Z; completion_tokens : Z; total_tokens : Z }.

(** [raw_response], the vendor's own dump that is excluded from every
    serialization, is left out. *)
Record ChatResponse := mkChatResponse
  { resp_content : string;
    resp_model : string;
    resp_usage : option Usage;
    resp_finish_reason : option string }.

Record StreamChunk := mkStreamChunk
  { chunk_content : string;
    chunk_finish_reason : option string;
    is_final : bool }.

(** ** [uniai/context/memory.py] *)

Module Memory.

Record t := mk
  { _messages : list Message;
    _max_messages : option Z;
    _system_prompt : option string }.

(** [Memory(max_messages, system_prompt)]. *)
Definition init (max_messages : option Z) (system_prompt : option string) : t :=
  {| _messages := []; _max_messages := max_messages;
     _system_prompt := system_prompt |}.

Definition with_messages (m : t) (l : list Message) : t :=
  {| _messages := l; _max_messages := _max_messages m;
     _system_prompt := _system_prompt m |}.

(** The [messages] property (a copy of the list). *)
Definition messages (m : t) : list Message := _messages m.

(** The [system_prompt] property and its setter. *)
Definition system_prompt (m : t) : option string := _system_prompt m.

Definition set_system_prompt (m : t) (value : option string) : t :=
  {| _messages := _messages m; _max_messages := _max_messages m;
     _system_prompt := value |}.

Definition _enforce_limit (m : t) : t :=
  match _max_messages m with
  | Some bound =>
      if len (_messages m) >? bound then
        let excess := len (_messages m) - bound in
        with_messages m (slice_from excess (_messages m))
      else m
  | None => m
  end.

Definition _add_message (m : t) (message : Message) : t :=
  _enforce_limit (with_messages m (_messages m ++ [message])).

Definition add_user_message (m : t) (c : string) : t :=
  _add_message m (mkMessage USER c).

Definition add_assistant_message (m : t) (c : string) : t :=
  _add_message m (mkMessage ASSISTANT c).

Definition add_system_message (m : t) (c : string) : t :=
  _add_message m (mkMessage SYSTEM c).

Definition get_context (m : t) : list Message :=
  if_truthy (_system_prompt m) (mkMessage SYSTEM) ++ _messages m.

Definition clear (m : t) : t := with_messages m [].

Definition pop_last (m : t) : option Message * t :=
  match _messages m with
  | [] => (None, m)
  | _ => (last (_messages m),
          with_messages m (take (length (_messages m) - 1) (_messages m)))
  end.

(** One of the three public appends, as a value: the role picks the
    method, the string is its argument. *)
Definition append (m : t) (a : Role * string) : t :=
  match a.1 with
  | USER => add_user_message m a.2
  | ASSISTANT => add_assistant_message m a.2
  | SYSTEM => add_system_message m a.2
  end.

(** A sequence of appends, oldest first. *)
Definition appends (m : t) (l : list (Role * string)) : t :=
  foldl append m l.

(** The message created by an append. *)
Definition appended (a : Role * string) : Message := mkMessage a.1 a.2.

(** [Memory.__len__]. *)
Definition __len__ (m : t) : Z := len (_messages m).

End Memory.

(** The last [k] elements of a list, in their original order. *)
Definition lastn {A} (k : nat) (l : list A) : list A := drop (length l - k) l.

(** ** [uniai/exceptions.py], and the exceptions of the collaborators *)

(** The classes of exception a vendor client (or the adapter's own code
    inside its [try] block) can raise.  The first three are the ones
    [openai] exports and the OpenAI-compatible adapters test for; the next
    three are those of [google.api_core.exceptions] the Gemini adapter tests
    for, where [GoogleAPIError] stands for an instance of that class that is
    neither of its two subclasses above it; [IndexError] is what
    [response.choices[0]] raises on an empty list; [OtherException] is any
    other subclass of [Exception]. *)
Inductive ExcClass :=
  | OpenAIAuthError
  | OpenAIRateLimitError
  | APIConnectionError
  | Unauthenticated
  | ResourceExhausted
  | GoogleAPIError
  | IndexError
  | OtherException.

(** An exception object of a collaborator: its class, [str(error)] and its
    [code] attribute when it has one. *)
Record PyExc := mkExc
  { exc_class : ExcClass; exc_str : string; exc_code : option Z }.

(** [isinstance(error, google_exceptions.GoogleAPIError)]: the class and its
    subclasses. *)
Definition isinstance_GoogleAPIError (e : PyExc) : bool :=
  match exc_class e with
  | Unauthenticated | ResourceExhausted | GoogleAPIError => true
  | _ => false
  end.

(** What a call can raise.  The first six are [uniai.exceptions]; the
    [APIError] family carries [status_code].  [ValueError] is the builtin,
    [ValidationError] is pydantic's (a subclass of [ValueError]) and
    [VendorError] is a collaborator's exception that nobody converted. *)
Inductive exn :=
  | ConfigurationError (msg : string)
  | ProviderError (provider msg : string)
  | APIError (msg : string) (status_code : option Z)
  | RateLimitError (msg : string) (status_code : option Z)
  | AuthenticationError (msg : string) (status_code : option Z)
  | InvalidRequestError (msg : string) (status_code : option Z)
  | ValueError (msg : string)
  | ValidationError (msg : string)
  | VendorError (e : PyExc).

(** [str(e)] for the two exceptions [_create_provider] converts. *)
Definition exn_str (e : exn) : string :=
  match e with
  | ConfigurationError m | ProviderError _ m | APIError m _
  | RateLimitError m _ | AuthenticationError m _ | InvalidRequestError m _
  | ValueError m | ValidationError m => m
  | VendorError v => exc_str v
  end.

(** [isinstance(e, ValueError)]. *)
Definition isinstance_ValueError (e : exn) : bool :=
  match e with
  | ValueError _ | ValidationError _ => true
  | _ => false
  end.

(** The three classes an adapter is allowed to let through. *)
Inductive ErrorClass := IsAuthenticationError | IsRateLimitError | IsAPIError.

(** The class of a raised exception, when it is exactly one of the three
    (the subclass [InvalidRequestError] and everything outside the family
    have none). *)
Definition classify (e : exn) : option ErrorClass :=
  match e with
  | AuthenticationError _ _ => Some IsAuthenticationError
  | RateLimitError _ _ => Some IsRateLimitError
  | APIError _ _ => Some IsAPIError
  | _ => None
  end.

Definition status_of (e : exn) : option Z :=
  match e with
  | APIError _ c | RateLimitError _ c | AuthenticationError _ c
  | InvalidRequestError _ c => c
  | _ => None
  end.

(** The outcome of a call: a value or a raised exception. *)
Inductive Res (A : Type) :=
  | Ok (a : A)
  | Raise (e : exn).
Arguments Ok {A} a.
Arguments Raise {A} e.

(** ** [uniai/core/config.py] *)

Module Config.

(** The class of a settings object, for [isinstance]. *)
Inductive Class :=
  | ProviderConfig | OpenAIConfig | DeepSeekConfig | ClaudeConfig | GeminiConfig.

Record t := mk
  { class : Class;
    api_key : string;
    model : string;
    base_url : option string;
    timeout : Q;
    max_retries : Z;
    temperature : Q;
    max_tokens : option Z;
    system_prompt : option string }.

(** [OpenAIConfig.model_fields["model"].default] and its siblings. *)
Definition OpenAIConfig_base_url_default := "https://api.openai.com/v1".
Definition OpenAIConfig_model_default := "gpt-4o-mini".
Definition DeepSeekConfig_base_url_default := "https://api.deepseek.com".
Definition DeepSeekConfig_model_default := "deepseek-chat".

(** The [Field(ge=..., le=...)] constraints, and for the subclasses that
    retype a field as a plain [str] or [int], that it is not [None]. *)
Definition valid (c : t) : bool :=
  Qle_bool 1 (timeout c)
  && (0 <=? max_retries c)%Z
  && Qle_bool 0 (temperature c) && Qle_bool (temperature c) 2
  && match max_tokens c with Some n => (1 <=? n)%Z | None => true end
  && match class c with
     | OpenAIConfig | DeepSeekConfig => bool_decide (is_Some (base_url c))
     | ClaudeConfig =>
         bool_decide (is_Some (base_url c)) && bool_decide (is_Some (max_tokens c))
     | ProviderConfig | GeminiConfig => true
     end.

(** [config.system_prompt = value]: the settings object is not frozen. *)
Definition with_system_prompt (c : t) (value : option string) : t :=
  {| class := class c; api_key := api_key c; model := model c;
     base_url := base_url c; timeout := timeout c;
     max_retries := max_retries c; temperature := temperature c;
     max_tokens := max_tokens c; system_prompt := value |}.

(** Calling a settings class with every field given: pydantic validates
    and raises [ValidationError] on a field out of range. *)
Definition new (c : t) : Res t :=
  if valid c then Ok c else Raise (ValidationError "validation error").

End Config.

(** ** The vendor clients (external collaborators)

    Each adapter talks to a vendor SDK that offers a blocking exchange and an
    incremental one.  The SDK is not part of the package: it is an oracle
    from the request it is handed to what it answers, and every request an
    adapter hands over is recorded in order (the wire log). *)

(** The keyword arguments of [client.chat.completions.create]. *)
Record OpenAIRequest := mkOpenAIRequest
  { req_model : string;
    req_messages : list WireMessage;
    req_temperature : Q;
    req_max_tokens : option Z;
    req_stream : bool }.

Record Choice := mkChoice
  { message_content : option string; choice_finish_reason : option string }.

Record Completion := mkCompletion
  { choices : list Choice; completion_model : string; usage : option Usage }.

Record ChunkChoice := mkChunkChoice
  { delta_content : option string; delta_finish_reason : option string }.

Record CompletionChunk := mkCompletionChunk { chunk_choices : list ChunkChoice }.

Record GenerationConfig := mkGenerationConfig
  { gen_temperature : Q; max_output_tokens : option Z }.

(** The arguments of [GenerativeModel(model).generate_content]. *)
Record GeminiRequest := mkGeminiRequest
  { gem_model : string;
    gem_prompt : string;
    gem_generation_config : GenerationConfig;
    gem_streaming : bool }.

Record UsageMetadata := mkUsageMetadata
  { prompt_token_count : option Z;
    candidates_token_count : option Z;
    total_token_count : option Z }.

Record GeminiResponse := mkGeminiResponse
  { text : option string; usage_metadata : option UsageMetadata }.

Record GeminiChunk := mkGeminiChunk { chunk_text : option string }.

(** What iterating a vendor stream delivers: the items, then either
    exhaustion ([None]) or an exception.  A call that raises before the first
    item has no items. *)
Record VendorStream (A : Type) := mkVendorStream
  { items : list A; failure : option PyExc }.
Arguments mkVendorStream {A} items failure.
Arguments items {A} v.
Arguments failure {A} v.

Record Vendor := mkVendor
  { create : OpenAIRequest -> Completion + PyExc;
    create_stream : OpenAIRequest -> VendorStream CompletionChunk;
    generate_content : GeminiRequest -> GeminiResponse + PyExc;
    generate_content_stream : GeminiRequest -> VendorStream GeminiChunk;
    (** whether [from google.api_core import exceptions] succeeds *)
    google_api_core : bool }.

Inductive WireRequest :=
  | ToOpenAI (r : OpenAIRequest)
  | ToGemini (r : GeminiRequest).

(** What iterating a generator of the package delivers: the values it
    yields, then normal completion ([None]) or a raised exception. *)
Record Stream (A : Type) := mkStream
  { yielded : list A; raised : option exn }.
Arguments mkStream {A} yielded raised.
Arguments yielded {A} s.
Arguments raised {A} s.

(** ** [uniai/core/base.py] and [uniai/providers/] *)

Module Provider.

Inductive Kind := OpenAI | DeepSeek | Gemini.

(** A provider instance: its class and its [config]. *)
Record t := mk { kind : Kind; config : Config.t }.

(** The display name the error messages of the OpenAI-compatible adapters
    use. *)
Definition label (k : Kind) : string :=
  match k with
  | OpenAI => "OpenAI"
  | DeepSeek => "DeepSeek"
  | Gemini => "Gemini"
  end.

(** [BaseProvider._prepare_messages]. *)
Definition _prepare_messages (self : t) (messages : list Message)
  : list WireMessage :=
  if_truthy (Config.system_prompt (config self)) (mkWire "system")
  ++ map to_dict messages.

(** [OpenAIProvider.__init__].  The call of [_init_client] that ends each
    constructor builds the vendor client from the settings; the client is the
    [Vendor] the calls below are given.  The constructors are modelled as they
    run when the vendor SDK accepts the settings: an SDK that refuses to build
    its client raises out of the constructor, which is not modelled, so what
    is stated of a constructor is stated of a construction that returned. *)
Definition OpenAIProvider (config : Config.t) : Res t :=
  match Config.class config with
  | Config.OpenAIConfig => Ok (mk OpenAI config)
  | _ =>
      match Config.new
              {| Config.class := Config.OpenAIConfig;
                 Config.api_key := Config.api_key config;
                 Config.model := Config.model config;
                 Config.base_url :=
                   Some (str_or (Config.base_url config)
                                Config.OpenAIConfig_base_url_default);
                 Config.timeout := Config.timeout config;
                 Config.max_retries := Config.max_retries config;
                 Config.temperature := Config.temperature config;
                 Config.max_tokens := Config.max_tokens config;
                 Config.system_prompt := Config.system_prompt config |}
      with
      | Ok c => Ok (mk OpenAI c)
      | Raise e => Raise e
      end
  end.

(** [DeepSeekProvider.__init__]. *)
Definition DeepSeekProvider (config : Config.t) : Res t :=
  match Config.class config with
  | Config.DeepSeekConfig => Ok (mk DeepSeek config)
  | _ =>
      match Config.new
              {| Config.class := Config.DeepSeekConfig;
                 Config.api_key := Config.api_key config;
                 Config.model :=
                   str_or (Some (Config.model config))
                          Config.DeepSeekConfig_model_default;
                 Config.base_url :=
                   Some (str_or (Config.base_url config)
                                Config.DeepSeekConfig_base_url_default);
                 Config.timeout := Config.timeout config;
                 Config.max_retries := Config.max_retries config;
                 Config.temperature := Config.temperature config;
                 Config.max_tokens := Config.max_tokens config;
                 Config.system_prompt := Config.system_prompt config |}
      with
      | Ok c => Ok (mk DeepSeek c)
      | Raise e => Raise e
      end
  end.

(** [GeminiProvider.__init__].  The class [GeminiConfig] it imports is not
    defined in [config.py]; its default model is the argument
    [model_default]. *)
Definition GeminiProvider (model_default : string) (config : Config.t) : Res t :=
  match Config.class config with
  | Config.GeminiConfig => Ok (mk Gemini config)
  | _ =>
      match Config.new
              {| Config.class := Config.GeminiConfig;
                 Config.api_key := Config.api_key config;
                 Config.model :=
                   str_or (Some (Config.model config)) model_default;
                 Config.base_url := Config.base_url config;
                 Config.timeout := Config.timeout config;
                 Config.max_retries := Config.max_retries config;
                 Config.temperature := Config.temperature config;
                 Config.max_tokens := Config.max_tokens config;
                 Config.system_prompt := Config.system_prompt config |}
      with
      | Ok c => Ok (mk Gemini c)
      | Raise e => Raise e
      end
  end.

(** [OpenAIProvider._handle_error] and [DeepSeekProvider._handle_error]:
    the two differ in the vendor's name only.  The function always raises;
    its value is the exception raised. *)
Definition _handle_error_openai (name : string) (error : PyExc) : exn :=
  match exc_class error with
  | OpenAIAuthError =>
      AuthenticationError "Invalid API key or unauthorized access" (Some 401)
  | OpenAIRateLimitError =>
      RateLimitError "Rate limit exceeded. Please try again later." (Some 429)
  | APIConnectionError =>
      APIError ("Failed to connect to " +:+ name +:+ " API: " +:+ exc_str error) None
  | _ => APIError (name +:+ " API error: " +:+ exc_str error) None
  end.

(** [GeminiProvider._handle_error]. *)
Definition _handle_error_gemini (google_api_core : bool) (error : PyExc) : exn :=
  if negb google_api_core then
    APIError ("Gemini API error: " +:+ exc_str error) None
  else
    match exc_class error with
    | Unauthenticated =>
        AuthenticationError "Invalid Gemini API key or unauthorized access"
                            (Some 401)
    | ResourceExhausted =>
        RateLimitError "Gemini rate limit exceeded. Please try again later."
                       (Some 429)
    | _ =>
        if isinstance_GoogleAPIError error then
          APIError ("Gemini API error: " +:+ exc_str error) (exc_code error)
        else
          APIError ("Gemini API error: " +:+ exc_str error) None
    end.

(** [self._handle_error(error)], dispatched on the class of [self]. *)
Definition _handle_error (v : Vendor) (self : t) (error : PyExc) : exn :=
  match kind self with
  | Gemini => _handle_error_gemini (google_api_core v) error
  | k => _handle_error_openai (label k) error
  end.

(** [OpenAIProvider.chat] and [DeepSeekProvider.chat] (the same code):
    the request handed to the client, and the outcome. *)
Definition chat_openai (v : Vendor) (self : t) (messages : list Message)
  : list WireRequest * Res ChatResponse :=
  let prepared_messages := _prepare_messages self messages in
  let request :=
    {| req_model := Config.model (config self);
       req_messages := prepared_messages;
       req_temperature := Config.temperature (config self);
       req_max_tokens := Config.max_tokens (config self);
       req_stream := false |} in
  ([ToOpenAI request],
   match create v request with
   | inl response =>
       match choices response with
       | choice :: _ =>
           Ok {| resp_content := str_or (message_content choice) "";
                 resp_model := completion_model response;
                 resp_usage := usage response;
                 resp_finish_reason := choice_finish_reason choice |}
       | [] =>
           Raise (_handle_error v self
                    (mkExc IndexError "list index out of range" None))
       end
   | inr e => Raise (_handle_error v self e)
   end).

(** The body of the [for chunk in stream] loop of the OpenAI-compatible
    adapters: what one vendor chunk makes the generator yield. *)
Definition yield_of_chunk (chunk : CompletionChunk) : list StreamChunk :=
  match chunk_choices chunk with
  | choice :: _ =>
      if truthy (delta_content choice) then
        [ {| chunk_content := default "" (delta_content choice);
             chunk_finish_reason := delta_finish_reason choice;
             is_final := bool_decide (is_Some (delta_finish_reason choice)) |} ]
      else if truthy (delta_finish_reason choice) then
        [ {| chunk_content := "";
             chunk_finish_reason := delta_finish_reason choice;
             is_final := true |} ]
      else []
  | [] => []
  end.

(** [OpenAIProvider.stream_chat] and [DeepSeekProvider.stream_chat]. *)
Definition stream_chat_openai (v : Vendor) (self : t) (messages : list Message)
  : list WireRequest * Stream StreamChunk :=
  let prepared_messages := _prepare_messages self messages in
  let request :=
    {| req_model := Config.model (config self);
       req_messages := prepared_messages;
       req_temperature := Config.temperature (config self);
       req_max_tokens := Config.max_tokens (config self);
       req_stream := true |} in
  let stream := create_stream v request in
  ([ToOpenAI request],
   {| yielded := flat_map yield_of_chunk (items stream);
      raised := option_map (_handle_error v self) (failure stream) |}).

Definition newline : string := String (Ascii.ascii_of_nat 10) EmptyString.

(** [GeminiProvider._build_prompt]. *)
Definition _build_prompt (self : t) (messages : list Message) : string :=
  let parts :=
    if_truthy (Config.system_prompt (config self)) (fun s => "System: " +:+ s)
    ++ map (fun msg =>
              match role msg with
              | SYSTEM => "System: " +:+ content msg
              | USER => "User: " +:+ content msg
              | ASSISTANT => "Assistant: " +:+ content msg
              end) messages in
  join newline parts.

(** [GeminiProvider._get_generation_config]. *)
Definition _get_generation_config (self : t) : GenerationConfig :=
  {| gen_temperature := Config.temperature (config self);
     max_output_tokens := Config.max_tokens (config self) |}.

(** [GeminiProvider.chat]. *)
Definition chat_gemini (v : Vendor) (self : t) (messages : list Message)
  : list WireRequest * Res ChatResponse :=
  let prompt := _build_prompt self messages in
  let request :=
    {| gem_model := Config.model (config self);
       gem_prompt := prompt;
       gem_generation_config := _get_generation_config self;
       gem_streaming := false |} in
  ([ToGemini request],
   match generate_content v request with
   | inl response =>
       Ok {| resp_content := str_or (text response) "";
             resp_model := Config.model (config self);
             resp_usage :=
               option_map
                 (fun um =>
                    {| prompt_tokens := default 0 (prompt_token_count um);
                       completion_tokens := default 0 (candidates_token_count um);
                       total_tokens := default 0 (total_token_count um) |})
                 (usage_metadata response);
             resp_finish_reason := None |}
   | inr e => Raise (_handle_error v self e)
   end).

(** The body of the loop of [GeminiProvider.stream_chat]. *)
Definition yield_of_text (chunk : GeminiChunk) : list StreamChunk :=
  if truthy (chunk_text chunk) then
    [ {| chunk_content := default "" (chunk_text chunk);
         chunk_finish_reason := None;
         is_final := false |} ]
  else [].

(** [GeminiProvider.stream_chat]: the chunk after the loop is yielded when
    the loop ends by exhaustion, not when the vendor stream raises. *)
Definition stream_chat_gemini (v : Vendor) (self : t) (messages : list Message)
  : list WireRequest * Stream StreamChunk :=
  let prompt := _build_prompt self messages in
  let request :=
    {| gem_model := Config.model (config self);
       gem_prompt := prompt;
       gem_generation_config := _get_generation_config self;
       gem_streaming := true |} in
  let stream := generate_content_stream v request in
  ([ToGemini request],
   match failure stream with
   | None =>
       {| yielded :=
            flat_map yield_of_text (items stream)
            ++ [ {| chunk_content := ""; chunk_finish_reason := Some "stop";
                    is_final := true |} ];
          raised := None |}
   | Some e =>
       {| yielded := flat_map yield_of_text (items stream);
          raised := Some (_handle_error v self e) |}
   end).

(** [self.chat(messages)] and [self.stream_chat(messages)], dispatched on
    the class of [self]. *)
Definition chat (v : Vendor) (self : t) (messages : list Message)
  : list WireRequest * Res ChatResponse :=
  match kind self with
  | Gemini => chat_gemini v self messages
  | _ => chat_openai v self messages
  end.

Definition stream_chat (v : Vendor) (self : t) (messages : list Message)
  : list WireRequest * Stream StreamChunk :=
  match kind self with
  | Gemini => stream_chat_gemini v self messages
  | _ => stream_chat_openai v self messages
  end.

End Provider.

(** ** [uniai/providers/__init__.py] *)

Module Registry.

(** A provider class, as the registry stores it: its constructor. *)
Definition Constructor := Config.t -> Res Provider.t.

(** The dictionary [PROVIDERS]: keys in insertion order. *)
Definition t := list (string * Constructor).

Definition PROVIDERS : t :=
  [ ("openai", Provider.OpenAIProvider);
    ("deepseek", Provider.DeepSeekProvider) ].

(** [d.get(k)]. *)
Fixpoint get (d : t) (k : string) : option Constructor :=
  match d with
  | [] => None
  | (k', c) :: d' => if String.eqb k' k then Some c else get d' k
  end.

(** [d.keys()]. *)
Definition keys (d : t) : list string := map fst d.

(** [d[k] = c]: an existing key keeps its place, a new one goes last. *)
Fixpoint set (d : t) (k : string) (c : Constructor) : t :=
  match d with
  | [] => [(k, c)]
  | (k', c') :: d' =>
      if String.eqb k' k then (k', c) :: d' else (k', c') :: set d' k c
  end.

Definition get_provider (d : t) (name : string) : Res Constructor :=
  match get d (lower name) with
  | Some provider => Ok provider
  | None =>
      let available := join ", " (keys d) in
      Raise (ValueError ("Unknown provider: " +:+ name
                         +:+ ". Available: " +:+ available))
  end.

Definition register_provider (d : t) (name : string) (provider_class : Constructor) : t :=
  set d (lower name) provider_class.


End Registry.

(** ** [uniai/client.py] *)

Module Client.

(** The facade object. *)
Record UniAI := mkUniAI
  { _provider_name : string;
    _provider : Provider.t;
    _memory : Memory.t }.

(** What a method of the facade can change: the object itself, and the
    wire log of the requests handed to the vendor client so far. *)
Record State := mkState { self : UniAI; wire : list WireRequest }.

(** A method body: it runs from a state and ends in a value or a raise;
    either way the state reached is kept. *)
Definition M (A : Type) : Type := State -> Res A * State.

Definition ret {A} (a : A) : M A := fun s => (Ok a, s).

Definition bind {A B} (c : M A) (k : A -> M B) : M B :=
  fun s =>
    match c s with
    | (Ok a, s') => k a s'
    | (Raise e, s') => (Raise e, s')
    end.

Notation "x <- c ;; k" := (bind c (fun x => k))
  (at level 100, c at next level, right associativity).
Notation "c ;;; k" := (bind c (fun _ => k))
  (at level 100, right associativity).

(** A call that cannot touch the state. *)
Definition lift {A} (r : Res A) : M A := fun s => (r, s).

Definition read {A} (f : UniAI -> A) : M A := fun s => (Ok (f (self s)), s).

Definition update (f : UniAI -> UniAI) : M unit :=
  fun s => (Ok tt, {| self := f (self s); wire := wire s |}).

(** The facade with its memory in another state. *)
Definition with_memory (u : UniAI) (m : Memory.t) : UniAI :=
  {| _provider_name := _provider_name u; _provider := _provider u; _memory := m |}.

(** A call on [self._memory] that mutates it. *)
Definition on_memory (f : Memory.t -> Memory.t) : M unit :=
  update (fun u => with_memory u (f (_memory u))).

Definition set_provider_name (n : string) : M unit :=
  update (fun u => {| _provider_name := n;
                      _provider := _provider u;
                      _memory := _memory u |}).

Definition set_provider (p : Provider.t) : M unit :=
  update (fun u => {| _provider_name := _provider_name u;
                      _provider := p;
                      _memory := _memory u |}).

(** A call on [self._provider] that talks to the vendor: the requests are
    added to the wire log. *)
Definition send {A} (call : Provider.t -> list WireRequest * A) : State -> A * State :=
  fun s =>
    let '(sent, a) := call (_provider (self s)) in
    (a, {| self := self s; wire := wire s ++ sent |}).

(** [UniAI._create_provider]. *)
Definition _create_provider (d : Registry.t) (name : string) (config : Config.t)
  : Res Provider.t :=
  let attempt :=
    match Registry.get_provider d name with
    | Ok provider_class => provider_class config
    | Raise e => Raise e
    end in
  match attempt with
  | Ok p => Ok p
  | Raise e =>
      if isinstance_ValueError e then Raise (ConfigurationError (exn_str e))
      else Raise e
  end.

(** The arguments of [UniAI(...)]; the defaults of the signature are those
    of [default_args]. *)
Record InitArgs := mkInitArgs
  { provider : string;
    api_key : string;
    model : option string;
    base_url : option string;
    system_prompt : option string;
    temperature : Q;
    max_tokens : option Z;
    max_history : option Z;
    timeout : Q;
    max_retries : Z }.

Definition default_args (provider api_key : string) : InitArgs :=
  {| provider := provider; api_key := api_key; model := None;
     base_url := None; system_prompt := None; temperature := 1;
     max_tokens := None; max_history := None; timeout := 60;
     max_retries := 3 |}.

(** The settings object [UniAI.__init__] asks [ProviderConfig] for. *)
Definition init_settings (a : InitArgs) : Config.t :=
  {| Config.class := Config.ProviderConfig;
     Config.api_key := api_key a;
     Config.model := str_or (model a) "";
     Config.base_url := base_url a;
     Config.temperature := temperature a;
     Config.max_tokens := max_tokens a;
     Config.timeout := timeout a;
     Config.max_retries := max_retries a;
     Config.system_prompt := system_prompt a |}.

(** [UniAI.__init__]. *)
Definition __init__ (d : Registry.t) (a : InitArgs) : Res UniAI :=
  let name := lower (provider a) in
  let memory := Memory.init (max_history a) (system_prompt a) in
  match Config.new (init_settings a) with
  | Raise e => Raise e
  | Ok config =>
      match _create_provider d name config with
      | Raise e => Raise e
      | Ok p =>
          Ok {| _provider_name := name; _provider := p; _memory := memory |}
      end
  end.

(** [UniAI.chat]. *)
Definition chat (v : Vendor) (message : string) : M string :=
  on_memory (fun m => Memory.add_user_message m message) ;;;
  messages <- read (fun u => Memory.messages (_memory u)) ;;
  response <- send (fun p => Provider.chat v p messages) ;;
  on_memory (fun m => Memory.add_assistant_message m (resp_content response)) ;;;
  ret (resp_content response).

(** [UniAI.chat_with_response]. *)
Definition chat_with_response (v : Vendor) (message : string) : M ChatResponse :=
  on_memory (fun m => Memory.add_user_message m message) ;;;
  messages <- read (fun u => Memory.messages (_memory u)) ;;
  response <- send (fun p => Provider.chat v p messages) ;;
  on_memory (fun m => Memory.add_assistant_message m (resp_content response)) ;;;
  ret response.

(** The loop of [stream]: the contents kept in [full_response], which are
    also the values yielded. *)
Definition full_response (chunks : list StreamChunk) : list string :=
  List.filter (fun c => negb (String.eqb c "")) (map chunk_content chunks).

(** [UniAI.stream], iterated until it stops: the texts it yields, how it
    ends, and the state it leaves. *)
Definition stream (v : Vendor) (message : string) (s : State)
  : Stream string * State :=
  let s1 := (on_memory (fun m => Memory.add_user_message m message) s).2 in
  let messages := Memory.messages (_memory (self s1)) in
  let '(produced, s2) := send (fun p => Provider.stream_chat v p messages) s1 in
  let texts := full_response (yielded produced) in
  match raised produced with
  | Some e => ({| yielded := texts; raised := Some e |}, s2)
  | None =>
      let s3 :=
        (on_memory (fun m => Memory.add_assistant_message m (join "" texts)) s2).2 in
      ({| yielded := texts; raised := None |}, s3)
  end.

(** [UniAI.stream_with_chunks], iterated until it stops. *)
Definition stream_with_chunks (v : Vendor) (message : string) (s : State)
  : Stream StreamChunk * State :=
  let s1 := (on_memory (fun m => Memory.add_user_message m message) s).2 in
  let messages := Memory.messages (_memory (self s1)) in
  let '(produced, s2) := send (fun p => Provider.stream_chat v p messages) s1 in
  let texts := full_response (yielded produced) in
  match raised produced with
  | Some e => ({| yielded := yielded produced; raised := Some e |}, s2)
  | None =>
      let s3 :=
        (on_memory (fun m => Memory.add_assistant_message m (join "" texts)) s2).2 in
      ({| yielded := yielded produced; raised := None |}, s3)
  end.

(** The keyword arguments [switch_provider] looks up in [**kwargs]: each
    is absent ([None]) or present with a value. *)
Record Kwargs := mkKwargs
  { kw_temperature : option Q;
    kw_max_tokens : option (option Z);
    kw_timeout : option Q;
    kw_max_retries : option Z;
    kw_system_prompt : option (option string) }.

Definition no_kwargs : Kwargs :=
  {| kw_temperature := None; kw_max_tokens := None; kw_timeout := None;
     kw_max_retries := None; kw_system_prompt := None |}.

(** The settings object [switch_provider] asks [ProviderConfig] for: what
    [kwargs] does not give comes from the current provider's settings, and
    the directive from the memory. *)
Definition switch_settings (u : UniAI)
    (api_key : string) (model base_url : option string) (kwargs : Kwargs)
  : Config.t :=
  let old := Provider.config (_provider u) in
  {| Config.class := Config.ProviderConfig;
     Config.api_key := api_key;
     Config.model := str_or model "";
     Config.base_url := base_url;
     Config.temperature := default (Config.temperature old) (kw_temperature kwargs);
     Config.max_tokens := default (Config.max_tokens old) (kw_max_tokens kwargs);
     Config.timeout := default (Config.timeout old) (kw_timeout kwargs);
     Config.max_retries := default (Config.max_retries old) (kw_max_retries kwargs);
     Config.system_prompt :=
       default (Memory.system_prompt (_memory u)) (kw_system_prompt kwargs) |}.

(** [UniAI.switch_provider]. *)
Definition switch_provider (d : Registry.t)
    (provider api_key : string) (model base_url : option string)
    (keep_history : bool) (kwargs : Kwargs) : M unit :=
  settings <- read (fun u => switch_settings u api_key model base_url kwargs) ;;
  config <- lift (Config.new settings) ;;
  set_provider_name (lower provider) ;;;
  p <- lift (_create_provider d (lower provider) config) ;;
  set_provider p ;;;
  if negb keep_history then on_memory Memory.clear else ret tt.

(** [UniAI.clear_history]. *)
Definition clear_history : M unit := on_memory Memory.clear.

(** [UniAI.get_history]. *)
Definition get_history (u : UniAI) : list WireMessage :=
  map to_dict (Memory.messages (_memory u)).

End Client.

(** ** Vocabulary of the properties *)

(** The number of chunks flagged final. *)
Definition finals (l : list StreamChunk) : nat := length (List.filter is_final l).

(** Exactly one chunk is flagged final, and it is the last one. *)
Definition exactly_one_final_last (l : list StreamChunk) : bool :=
  Nat.eqb (finals l) 1
  && match last l with Some c => is_final c | None => false end.

(** The finish reason a vendor chunk carries for the adapter: that of its
    first choice. *)
Definition finish_reason_of (chunk : CompletionChunk) : option string :=
  match chunk_choices chunk with
  | choice :: _ => delta_finish_reason choice
  | [] => None
  end.

(** A vendor stream of the OpenAI protocol that ends with its finish signal:
    the last chunk carries a non-empty finish reason and no chunk before it
    carries any. *)
Definition ends_with_finish_signal (l : list CompletionChunk) : Prop :=
  exists body fin,
    l = body ++ [fin]
    /\ Forall (fun c => finish_reason_of c = None) body
    /\ truthy (finish_reason_of fin) = true.

(** A content delta and a finish delta of the OpenAI protocol, and a text
    chunk of Gemini's. *)
Definition content_delta (c : string) : CompletionChunk :=
  mkCompletionChunk [mkChunkChoice (Some c) None].

Definition finish_delta (reason : string) : CompletionChunk :=
  mkCompletionChunk [mkChunkChoice None (Some reason)].

Definition text_chunk (c : string) : GeminiChunk := mkGeminiChunk (Some c).

(** The exception with which a vendor rejects the credential, as the
    adapter of class [k] meets it.  An instance of a [google.api_core] class
    exists only where that package can be imported. *)
Definition vendor_auth_failure (v : Vendor) (k : Provider.Kind) (e : PyExc) : bool :=
  match k, exc_class e with
  | Provider.Gemini, Unauthenticated => google_api_core v
  | Provider.OpenAI, OpenAIAuthError | Provider.DeepSeek, OpenAIAuthError => true
  | _, _ => false
  end.

(** The directive a setting amounts to: an empty one is no directive. *)
Definition effective_directive (o : option string) : option string :=
  match o with
  | Some s => if String.eqb s "" then None else Some s
  | None => None
  end.

(** The adapters of the OpenAI protocol, which send a list of
    [{role, content}] entries. *)
Definition openai_compatible (k : Provider.Kind) : bool :=
  match k with
  | Provider.OpenAI | Provider.DeepSeek => true
  | Provider.Gemini => false
  end.

(** The requests a [chat] call, and a [stream] call iterated to its end,
    add to the wire log. *)
Definition wire_of_chat (v : Vendor) (message : string) (s : Client.State)
  : list WireRequest :=
  drop (length (Client.wire s)) (Client.wire (Client.chat v message s).2).

Definition wire_of_stream (v : Vendor) (message : string) (s : Client.State)
  : list WireRequest :=
  drop (length (Client.wire s)) (Client.wire (Client.stream v message s).2).

(** ** Sample collaborators and settings, for the concrete runs *)

Definition sample_config : Config.t :=
  {| Config.class := Config.ProviderConfig;
     Config.api_key := "sk-test";
     Config.model := "";
     Config.base_url := None;
     Config.timeout := 60;
     Config.max_retries := 3;
     Config.temperature := 1;
     Config.max_tokens := None;
     Config.system_prompt := None |}.

Definition connection_refused : PyExc :=
  mkExc APIConnectionError "Connection error." None.

(** The Gemini chunk carrying the text of a chunk of the OpenAI protocol. *)
Definition as_text_chunk (c : CompletionChunk) : GeminiChunk :=
  mkGeminiChunk
    match chunk_choices c with
    | choice :: _ => delta_content choice
    | [] => None
    end.

(** A vendor that refuses every exchange. *)
Definition unreachable_vendor : Vendor :=
  {| create := fun _ => inr connection_refused;
     create_stream := fun _ => mkVendorStream [] (Some connection_refused);
     generate_content := fun _ => inr connection_refused;
     generate_content_stream := fun _ => mkVendorStream [] (Some connection_refused);
     google_api_core := true |}.

(** A vendor that answers every blocking exchange with [reply] and every
    incremental one with the chunks [stream], then exhaustion. *)
Definition scripted_vendor (reply : string) (stream : list CompletionChunk) : Vendor :=
  {| create := fun r =>
       inl (mkCompletion [mkChoice (Some reply) (Some "stop")] (req_model r) None);
     create_stream := fun _ => mkVendorStream stream None;
     generate_content := fun _ => inl (mkGeminiResponse (Some reply) None);
     generate_content_stream := fun _ =>
       mkVendorStream (map as_text_chunk stream) None;
     google_api_core := true |}.

(** A vendor whose incremental exchange delivers [stream] and then breaks. *)
Definition breaking_vendor (stream : list CompletionChunk) (e : PyExc) : Vendor :=
  {| create := fun _ => inr e;
     create_stream := fun _ => mkVendorStream stream (Some e);
     generate_content := fun _ => inr e;
     generate_content_stream := fun _ =>
       mkVendorStream (map as_text_chunk stream) (Some e);
     google_api_core := true |}.

(** A vendor that rejects the credential. *)
Definition rejecting_vendor : Vendor :=
  {| create := fun _ => inr (mkExc OpenAIAuthError "Error code: 401" (Some 401));
     create_stream := fun _ =>
       mkVendorStream [] (Some (mkExc OpenAIAuthError "Error code: 401" (Some 401)));
     generate_content := fun _ => inr (mkExc Unauthenticated "401 API key not valid" (Some 401));
     generate_content_stream := fun _ =>
       mkVendorStream [] (Some (mkExc Unauthenticated "401 API key not valid" (Some 401)));
     google_api_core := true |}.

(** Provider instances as the constructors leave them. *)
Definition sample_openai : Provider.t :=
  Provider.mk Provider.OpenAI
    {| Config.class := Config.OpenAIConfig;
       Config.api_key := "sk-test";
       Config.model := "gpt-4o";
       Config.base_url := Some Config.OpenAIConfig_base_url_default;
       Config.timeout := 60;
       Config.max_retries := 3;
       Config.temperature := 1;
       Config.max_tokens := None;
       Config.system_prompt := None |}.

Definition sample_gemini : Provider.t :=
  Provider.mk Provider.Gemini
    {| Config.class := Config.GeminiConfig;
       Config.api_key := "sk-test";
       Config.model := "gemini-pro";
       Config.base_url := None;
       Config.timeout := 60;
       Config.max_retries := 3;
       Config.temperature := 1;
       Config.max_tokens := None;
       Config.system_prompt := None |}.

(** Three content deltas and the finish signal. *)
Definition hello_stream : list CompletionChunk :=
  [content_delta "Hel"; content_delta "lo"; content_delta "!"; finish_delta "stop"].

(** Content, and then the vendor stream just ends. *)
Definition cut_stream : list CompletionChunk := [content_delta "Hi"].

(** [UniAI("OpenAI", "sk-test", model="gpt-4o", system_prompt="Be brief.")]
    and the facade it builds. *)
Definition briefed_args : Client.InitArgs :=
  {| Client.provider := "OpenAI"; Client.api_key := "sk-test";
     Client.model := Some "gpt-4o"; Client.base_url := None;
     Client.system_prompt := Some "Be brief."; Client.temperature := 1;
     Client.max_tokens := None; Client.max_history := None;
     Client.timeout := 60; Client.max_retries := 3 |}.

Definition briefed_facade : Client.UniAI :=
  {| Client._provider_name := "openai";
     Client._provider :=
       Provider.mk Provider.OpenAI
         {| Config.class := Config.OpenAIConfig;
            Config.api_key := "sk-test";
            Config.model := "gpt-4o";
            Config.base_url := Some Config.OpenAIConfig_base_url_default;
            Config.timeout := 60;
            Config.max_retries := 3;
            Config.temperature := 1;
            Config.max_tokens := None;
            Config.system_prompt := Some "Be brief." |};
     Client._memory := Memory.init None (Some "Be brief.") |}.

(** [UniAI("openai", "sk-test")] builds this facade. *)
Definition plain_facade : Client.UniAI :=
  {| Client._provider_name := "openai";
     Client._provider :=
       Provider.mk Provider.OpenAI
         {| Config.class := Config.OpenAIConfig;
            Config.api_key := "sk-test";
            Config.model := "";
            Config.base_url := Some Config.OpenAIConfig_base_url_default;
            Config.timeout := 60;
            Config.max_retries := 3;
            Config.temperature := 1;
            Config.max_tokens := None;
            Config.system_prompt := None |};
     Client._memory := Memory.init None None |}.

(** [**kwargs] of [switch_provider(..., system_prompt="Be terse.")]. *)
Definition terse_kwargs : Client.Kwargs :=
  {| Client.kw_temperature := None; Client.kw_max_tokens := None;
     Client.kw_timeout := None; Client.kw_max_retries := None;
     Client.kw_system_prompt := Some (Some "Be terse.") |}.

(** The facade [plain_facade] after
    [switch_provider("deepseek", "sk-test", system_prompt="Be terse.")]. *)
Definition terse_facade : Client.UniAI :=
  {| Client._provider_name := "deepseek";
     Client._provider :=
       Provider.mk Provider.DeepSeek
         {| Config.class := Config.DeepSeekConfig;
            Config.api_key := "sk-test";
            Config.model := Config.DeepSeekConfig_model_default;
            Config.base_url := Some Config.DeepSeekConfig_base_url_default;
            Config.timeout := 60;
            Config.max_retries := 3;
            Config.temperature := 1;
            Config.max_tokens := None;
            Config.system_prompt := Some "Be terse." |};
     Client._memory := Memory.init None None |}.


(** The facade [plain_facade] after one exchange. *)
Definition chatted_facade : Client.UniAI :=
  Client.with_memory plain_facade
    (Memory.mk [mkMessage USER "hi"; mkMessage ASSISTANT "Hello."] None None).

(** ** Vocabulary of the further properties *)

(** The stored messages fit the bound, when there is one (a negative bound
    allows none). *)
Definition within_bound (m : Memory.t) : Prop :=
  match Memory._max_messages m with
  | Some b => Memory.__len__ m <= Z.max 0 b
  | None => True
  end.

(** The text a vendor chunk of the OpenAI protocol carries for the adapter:
    the content of its first choice, nothing when that is absent. *)
Definition first_content (chunk : CompletionChunk) : string :=
  match chunk_choices chunk with
  | choice :: _ => str_or (delta_content choice) ""
  | [] => ""
  end.

(** The text a Gemini chunk carries. *)
Definition text_of (chunk : GeminiChunk) : string := str_or (chunk_text chunk) "".

(** The line of a flattened prompt for one wire entry: the role's label,
    then the content. *)
Definition prompt_line (w : WireMessage) : string :=
  (if String.eqb (wire_role w) "system" then "System: "
   else if String.eqb (wire_role w) "user" then "User: "
   else if String.eqb (wire_role w) "assistant" then "Assistant: "
   else "")
  +:+ wire_content w.

(** The settings of a provider that a conversion or a switch is meant to
    carry over unchanged. *)
Definition carried (c : Config.t) : string * Q * Z * Q * option Z * option string :=
  (Config.api_key c, Config.timeout c, Config.max_retries c,
   Config.temperature c, Config.max_tokens c, Config.system_prompt c).

(** The shape of a chunk: it is flagged final exactly when it carries a
    finish reason, and a chunk that is not final carries some text. *)
Definition well_formed_chunk (c : StreamChunk) : Prop :=
  (is_final c = true <-> is_Some (chunk_finish_reason c))
  /\ (is_final c = false -> chunk_content c <> "").

(** The exception with which a vendor signals throttling, as the adapter of
    class [k] meets it. *)
Definition vendor_throttling (v : Vendor) (k : Provider.Kind) (e : PyExc) : bool :=
  match k, exc_class e with
  | Provider.Gemini, ResourceExhausted => google_api_core v
  | Provider.OpenAI, OpenAIRateLimitError
  | Provider.DeepSeek, OpenAIRateLimitError => true
  | _, _ => false
  end.

(** The built-in constructor of a provider class. *)
Definition constructor_of (k : Provider.Kind) (gemini_model_default : string)
  : Registry.Constructor :=
  match k with
  | Provider.OpenAI => Provider.OpenAIProvider
  | Provider.DeepSeek => Provider.DeepSeekProvider
  | Provider.Gemini => Provider.GeminiProvider gemini_model_default
  end.


(** A run of facade calls, for the invariants that hold across them. *)
Inductive Call :=
  | CallChat (v : Vendor) (message : string)
  | CallChatWithResponse (v : Vendor) (message : string)
  | CallStream (v : Vendor) (message : string)
  | CallStreamWithChunks (v : Vendor) (message : string)
  | CallSwitch (d : Registry.t) (provider api_key : string)
               (model base_url : option string) (keep_history : bool)
               (kwargs : Client.Kwargs)
  | CallClear.

(** The state a call leaves, whatever it returned or raised. *)
Definition after_call (c : Call) (s : Client.State) : Client.State :=
  match c with
  | CallChat v message => (Client.chat v message s).2
  | CallChatWithResponse v message => (Client.chat_with_response v message s).2
  | CallStream v message => (Client.stream v message s).2
  | CallStreamWithChunks v message => (Client.stream_with_chunks v message s).2
  | CallSwitch d provider api_key model base_url keep_history kwargs =>
      (Client.switch_provider d provider api_key model base_url keep_history
                              kwargs s).2
  | CallClear => (Client.clear_history s).2
  end.

Definition after_calls (l : list Call) (s : Client.State) : Client.State :=
  foldl (fun s c => after_call c s) s l.

(** * Properties *)

(** ** Lists: the last [k] elements *)

Section lastn_facts.
Context {A : Type}.
Implicit Types l a b : list A.

Lemma lastn_length k l : length (lastn k l) = Nat.min k (length l).
Proof. unfold lastn. rewrite length_drop. lia. Qed.

Lemma lastn_all k l : (length l <= k)%nat -> lastn k l = l.
Proof.
  intros H. unfold lastn.
  replace (length l - k)%nat with 0%nat by lia. reflexivity.
Qed.

Lemma lastn_app_ge k a b : (k <= length b)%nat -> lastn k (a ++ b) = lastn k b.
Proof.
  intros H. unfold lastn. rewrite length_app.
  replace (length a + length b - k)%nat
    with (length a + (length b - k))%nat by lia.
  apply drop_app_add.
Qed.

Lemma lastn_lastn_app k a b : lastn k (lastn k a ++ b) = lastn k (a ++ b).
Proof.
  destruct (Nat.le_gt_cases (length a) k) as [Hle | Hgt].
  - rewrite (lastn_all k a) by exact Hle. reflexivity.
  - unfold lastn at 1 3. rewrite !length_app, lastn_length.
    unfold lastn.
    rewrite <- (drop_app_le a b (length a - k)) by lia.
    rewrite drop_drop. f_equal. lia.
Qed.

Lemma lastn_0 l : lastn 0 l = [].
Proof. unfold lastn. rewrite Nat.sub_0_r. apply drop_all. Qed.

End lastn_facts.

(** ** Conversation memory *)

Section memory_facts.
Import Memory.
Implicit Types (m : Memory.t) (x : Message) (a : Role * string).

Lemma append_is_add_message m a : append m a = _add_message m (appended a).
Proof. destruct a as [[] c]; reflexivity. Qed.

Lemma add_message_max m x : _max_messages (_add_message m x) = _max_messages m.
Proof.
  destruct m as [msgs [b|] sp]; unfold _add_message, _enforce_limit; cbn;
    [destruct (_ >? _)|]; reflexivity.
Qed.

Lemma add_message_prompt m x : _system_prompt (_add_message m x) = _system_prompt m.
Proof.
  destruct m as [msgs [b|] sp]; unfold _add_message, _enforce_limit; cbn;
    [destruct (_ >? _)|]; reflexivity.
Qed.

(** Without a bound an append only appends. *)
Lemma add_message_unbounded m x :
  _max_messages m = None -> _messages (_add_message m x) = _messages m ++ [x].
Proof. intros H. unfold _add_message, _enforce_limit. simpl. rewrite H. reflexivity. Qed.

(** With a bound of [K] messages an append keeps the last [K]. *)
Lemma add_message_bounded m x (K : nat) :
  _max_messages m = Some (Z.of_nat K) ->
  _messages (_add_message m x) = lastn K (_messages m ++ [x]).
Proof.
  intros H. unfold _add_message, _enforce_limit. simpl. rewrite H.
  unfold len, slice_from, lastn.
  destruct (Z.gtb_spec (Z.of_nat (length (_messages m ++ [x]))) (Z.of_nat K)) as [Hgt | Hle].
  - simpl. f_equal. lia.
  - replace (length (_messages m ++ [x]) - K)%nat with 0%nat by lia. reflexivity.
Qed.

(** A bound that is negative leaves nothing stored. *)
Lemma add_message_negative m x (b : Z) :
  _max_messages m = Some b -> b < 0 -> _messages (_add_message m x) = [].
Proof.
  intros H Hb. unfold _add_message, _enforce_limit. simpl. rewrite H.
  unfold len, slice_from.
  destruct (Z.gtb_spec (Z.of_nat (length (_messages m ++ [x]))) b) as [Hgt | Hle]; [|lia].
  simpl. apply drop_ge. lia.
Qed.

Lemma appends_max m l : _max_messages (appends m l) = _max_messages m.
Proof.
  revert m. induction l as [|a l IH]; intros m; [reflexivity|].
  simpl. unfold appends in IH. rewrite IH, append_is_add_message.
  apply add_message_max.
Qed.

Lemma appends_bounded (K : nat) l :
  forall m, _max_messages m = Some (Z.of_nat K) -> l <> [] ->
  _messages (appends m l) = lastn K (_messages m ++ map appended l).
Proof.
  induction l as [|a l IH]; intros m Hm Hne; [congruence|].
  destruct l as [|a' l].
  - simpl. rewrite append_is_add_message. apply add_message_bounded, Hm.
  - change (appends m (a :: a' :: l)) with (appends (append m a) (a' :: l)).
    rewrite IH; [| rewrite append_is_add_message, add_message_max; exact Hm | discriminate].
    rewrite append_is_add_message, (add_message_bounded _ _ K Hm).
    rewrite lastn_lastn_app, <- app_assoc. reflexivity.
Qed.

Lemma appends_unbounded l :
  forall m, _max_messages m = None ->
  _messages (appends m l) = _messages m ++ map appended l.
Proof.
  induction l as [|a l IH]; intros m Hm.
  - simpl. rewrite app_nil_r. reflexivity.
  - change (appends m (a :: l)) with (appends (append m a) l).
    rewrite IH by (rewrite append_is_add_message, add_message_max; exact Hm).
    rewrite append_is_add_message, add_message_unbounded by exact Hm.
    rewrite <- app_assoc. reflexivity.
Qed.

End memory_facts.

(** The directive is never stored and never counted: [clear] keeps it, and
    [get_context] puts it before the stored messages however many there
    are. *)
Lemma clear_keeps_directive m :
  Memory.messages (Memory.clear m) = []
  /\ Memory.system_prompt (Memory.clear m) = Memory.system_prompt m.
Proof. split; reflexivity. Qed.

Lemma context_directive_first m c s :
  Memory.system_prompt m = Some (String c s) ->
  Memory.get_context m = mkMessage SYSTEM (String c s) :: Memory.messages m.
Proof. unfold Memory.get_context, Memory.system_prompt. intros ->. reflexivity. Qed.

Example negative_bound_stores_nothing :
  Memory.messages
    (Memory.appends (Memory.init (Some (-1)) None) [(USER, "a"); (USER, "b")])
  = [].
Proof. reflexivity. Qed.

Example pop_last_returns_newest :
  Memory.pop_last
    (Memory.appends (Memory.init None None) [(USER, "a"); (ASSISTANT, "b")])
  = (Some (mkMessage ASSISTANT "b"), Memory.mk [mkMessage USER "a"] None None).
Proof. reflexivity. Qed.

(** C2. A memory bounded at [K] messages that receives more than [K]
    appends, through [add_user_message], [add_assistant_message] and
    [add_system_message] in any mix, stores exactly [K] messages afterwards:
    the last [K] appended, in the order they were appended.  This holds from
    any starting content of the memory. *)
Theorem bounded_memory_keeps_last_K
    (m : Memory.t) (K : nat) (l : list (Role * string)) :
  Memory._max_messages m = Some (Z.of_nat K) ->
  (K < length l)%nat ->
  length (Memory.messages (Memory.appends m l)) = K
  /\ Memory.messages (Memory.appends m l) = lastn K (map Memory.appended l).
Proof.
  intros Hm HK.
  assert (Hl : l <> []) by (destruct l; [simpl in HK; lia | discriminate]).
  unfold Memory.messages.
  rewrite (appends_bounded K l m Hm Hl).
  rewrite lastn_app_ge by (rewrite length_map; lia).
  split; [|reflexivity].
  rewrite lastn_length, length_map. lia.
Qed.

Lemma bounded_memory_keeps_last_K_witness :
  let m := Memory.init (Some 2) (Some "Be brief.") in
  let l := [(USER, "a"); (ASSISTANT, "b"); (SYSTEM, "c"); (USER, "d")] in
  Memory._max_messages m = Some (Z.of_nat 2)
  /\ (2 < length l)%nat
  /\ length (Memory.messages (Memory.appends m l)) = 2%nat
  /\ Memory.messages (Memory.appends m l)
     = [mkMessage SYSTEM "c"; mkMessage USER "d"].
Proof.
  split; [reflexivity|]. split; [simpl; lia|].
  pose proof (bounded_memory_keeps_last_K
                (Memory.init (Some 2) (Some "Be brief."))
                2 [(USER, "a"); (ASSISTANT, "b"); (SYSTEM, "c"); (USER, "d")]
                eq_refl ltac:(simpl; lia)) as [H1 H2].
  split; [exact H1 | exact H2].
Defined.

(** ** The system directive *)

Lemma if_truthy_empty {A} (f : string -> A) : if_truthy (Some "") f = [].
Proof. reflexivity. Qed.

Lemma if_truthy_nonempty {A} (f : string -> A) c s :
  if_truthy (Some (String c s)) f = [f (String c s)].
Proof. reflexivity. Qed.

(** An absent directive and an empty one contribute the same (nothing). *)
Lemma if_truthy_falsy {A} (f : string -> A) o : truthy o = false -> if_truthy o f = [].
Proof.
  destruct o as [s|]; [|reflexivity]. simpl.
  destruct (String.eqb s ""); [reflexivity | discriminate].
Qed.

Lemma if_truthy_truthy {A} (f : string -> A) o :
  truthy o = true -> exists s, o = Some s /\ s <> "" /\ if_truthy o f = [f s].
Proof.
  destruct o as [s|]; [|discriminate]. simpl.
  destruct (String.eqb_spec s ""); [discriminate|]. intros _. eauto.
Qed.

(** C10. A system directive that is the empty string counts as absent, in
    the memory and in the provider settings alike: [get_context] returns the
    stored messages and nothing before them, and [_prepare_messages] returns
    the converted messages and nothing before them, exactly as with no
    directive at all.  A directive of at least one character is what gets
    prepended, as one system entry. *)
Theorem empty_directive_is_absent
    (m : Memory.t) (k : Provider.Kind) (cfg : Config.t) (msgs : list Message) :
  let prepare o :=
    Provider._prepare_messages (Provider.mk k (Config.with_system_prompt cfg o)) msgs in
  let context o := Memory.get_context (Memory.set_system_prompt m o) in
  context (Some "") = Memory.messages m
  /\ context None = Memory.messages m
  /\ prepare (Some "") = map to_dict msgs
  /\ prepare None = map to_dict msgs
  /\ (forall c s, context (Some (String c s))
                  = mkMessage SYSTEM (String c s) :: Memory.messages m)
  /\ (forall c s, prepare (Some (String c s))
                  = mkWire "system" (String c s) :: map to_dict msgs).
Proof.
  repeat split; intros; reflexivity.
Qed.

(** ** Streaming: the terminal chunk *)

Section terminal_chunk.
Import Provider.

Lemma finals_app a b : finals (a ++ b) = (finals a + finals b)%nat.
Proof. unfold finals. rewrite List.filter_app, length_app. reflexivity. Qed.

Lemma one_final_last_snoc init c :
  finals init = 0%nat -> is_final c = true ->
  exactly_one_final_last (init ++ [c]) = true.
Proof.
  intros H0 Hc. unfold exactly_one_final_last.
  rewrite finals_app, H0, last_snoc, Hc. unfold finals. simpl. rewrite Hc.
  reflexivity.
Qed.

(** A vendor chunk without a finish reason yields nothing final. *)
Lemma yield_of_chunk_no_signal c :
  finish_reason_of c = None -> finals (yield_of_chunk c) = 0%nat.
Proof.
  unfold finish_reason_of, yield_of_chunk.
  destruct (chunk_choices c) as [|choice rest]; [reflexivity|].
  intros ->. simpl. destruct (truthy (delta_content choice)); reflexivity.
Qed.

(** A vendor chunk with a non-empty finish reason yields one chunk, and it
    is final. *)
Lemma yield_of_chunk_signal c :
  truthy (finish_reason_of c) = true ->
  exists x, yield_of_chunk c = [x] /\ is_final x = true
            /\ chunk_finish_reason x = finish_reason_of c.
Proof.
  unfold finish_reason_of, yield_of_chunk.
  destruct (chunk_choices c) as [|choice rest]; [discriminate|].
  intros H. rewrite H.
  destruct (delta_finish_reason choice) as [r|]; [|discriminate].
  destruct (truthy (delta_content choice)); eexists; (split; [reflexivity|]);
    split; reflexivity.
Qed.

Lemma yield_body_no_final body :
  Forall (fun c => finish_reason_of c = None) body ->
  finals (flat_map yield_of_chunk body) = 0%nat.
Proof.
  induction 1 as [|c body Hc _ IH]; [reflexivity|].
  simpl. rewrite finals_app, IH, yield_of_chunk_no_signal by exact Hc.
  reflexivity.
Qed.

Lemma openai_stream_one_final l :
  ends_with_finish_signal l ->
  exactly_one_final_last (flat_map yield_of_chunk l) = true.
Proof.
  intros (body & fin & -> & Hbody & Hfin).
  rewrite flat_map_app. simpl. rewrite app_nil_r.
  destruct (yield_of_chunk_signal fin Hfin) as (x & -> & Hx & _).
  apply one_final_last_snoc; [apply yield_body_no_final, Hbody | exact Hx].
Qed.

(** Gemini's text chunks are never final. *)
Lemma yield_texts_no_final l : finals (flat_map yield_of_text l) = 0%nat.
Proof.
  induction l as [|c l IH]; [reflexivity|].
  simpl. rewrite finals_app, IH. unfold yield_of_text.
  destruct (truthy (chunk_text c)); reflexivity.
Qed.

(** The number of final chunks the OpenAI-compatible adapters yield is the
    number of vendor chunks that make them yield one: nothing is added. *)
Lemma openai_finals_pointwise l :
  finals (flat_map yield_of_chunk l)
  = list_sum (map (fun c => finals (yield_of_chunk c)) l).
Proof.
  induction l as [|c l IH]; [reflexivity|].
  simpl. rewrite finals_app, IH. reflexivity.
Qed.

End terminal_chunk.

(** C4, as the code has it.  A streaming call that completes without an
    error yields exactly one chunk flagged final, as its last chunk,
    (a) on the Gemini adapter, however the vendor stream ends: the adapter
    adds the terminal chunk itself; (b) on the OpenAI-compatible adapters,
    when the vendor stream ends with its finish signal (a last chunk with a
    non-empty finish reason, none before it): these adapters forward the
    vendor's signal and add nothing.  (c) Three content deltas followed by a
    finish signal yield exactly four chunks: three that are not final, then
    one final chunk with empty content; (d) so do three text chunks of
    Gemini followed by exhaustion. *)
Theorem stream_has_one_terminal_chunk
    (v : Vendor) (p : Provider.t) (msgs : list Message) :
  let out := (Provider.stream_chat v p msgs).2 in
  (forall r, (Provider.stream_chat v p msgs).1 = [ToGemini r] ->
             failure (generate_content_stream v r) = None ->
             raised out = None /\ exactly_one_final_last (yielded out) = true)
  /\ (forall r, (Provider.stream_chat v p msgs).1 = [ToOpenAI r] ->
                failure (create_stream v r) = None ->
                ends_with_finish_signal (items (create_stream v r)) ->
                raised out = None /\ exactly_one_final_last (yielded out) = true)
  /\ (forall r a1 s1 a2 s2 a3 s3 a4 s4,
        let c1 := String a1 s1 in let c2 := String a2 s2 in
        let c3 := String a3 s3 in let reason := String a4 s4 in
        (Provider.stream_chat v p msgs).1 = [ToOpenAI r] ->
        create_stream v r
        = mkVendorStream
            [content_delta c1; content_delta c2; content_delta c3;
             finish_delta reason] None ->
        out = mkStream
                [mkStreamChunk c1 None false; mkStreamChunk c2 None false;
                 mkStreamChunk c3 None false;
                 mkStreamChunk "" (Some reason) true] None)
  /\ (forall r a1 s1 a2 s2 a3 s3,
        let c1 := String a1 s1 in let c2 := String a2 s2 in
        let c3 := String a3 s3 in
        (Provider.stream_chat v p msgs).1 = [ToGemini r] ->
        generate_content_stream v r
        = mkVendorStream [text_chunk c1; text_chunk c2; text_chunk c3] None ->
        out = mkStream
                [mkStreamChunk c1 None false; mkStreamChunk c2 None false;
                 mkStreamChunk c3 None false;
                 mkStreamChunk "" (Some "stop") true] None).
Proof.
  unfold Provider.stream_chat.
  destruct p as [[] cfg]; cbn -[exactly_one_final_last];
    (split; [|split; [|split]]); intros; simplify_eq.
  - match goal with H : failure _ = None |- _ => rewrite H end. cbn.
    split; [reflexivity|]. by apply openai_stream_one_final.
  - match goal with H : create_stream _ _ = _ |- _ => rewrite H end. reflexivity.
  - match goal with H : failure _ = None |- _ => rewrite H end. cbn.
    split; [reflexivity|]. by apply openai_stream_one_final.
  - match goal with H : create_stream _ _ = _ |- _ => rewrite H end. reflexivity.
  - match goal with H : failure _ = None |- _ => rewrite H end.
    cbn -[exactly_one_final_last].
    split; [reflexivity|].
    apply one_final_last_snoc; [apply yield_texts_no_final | reflexivity].
  - match goal with H : generate_content_stream _ _ = _ |- _ => rewrite H end.
    reflexivity.
Qed.

Lemma stream_has_one_terminal_chunk_witness :
  (Provider.stream_chat (scripted_vendor "" hello_stream) sample_openai []).2
  = mkStream
      [mkStreamChunk "Hel" None false; mkStreamChunk "lo" None false;
       mkStreamChunk "!" None false; mkStreamChunk "" (Some "stop") true] None
  /\ exactly_one_final_last
       (yielded (Provider.stream_chat (scripted_vendor "" hello_stream)
                                      sample_openai []).2) = true
  /\ exactly_one_final_last
       (yielded (Provider.stream_chat (scripted_vendor "" hello_stream)
                                      sample_gemini []).2) = true
  /\ length (yielded (Provider.stream_chat (scripted_vendor "" (take 3 hello_stream))
                                           sample_gemini []).2) = 4%nat.
Proof.
  destruct (stream_has_one_terminal_chunk
              (scripted_vendor "" hello_stream) sample_openai [])
    as (_ & Hb & Hc & _).
  destruct (stream_has_one_terminal_chunk
              (scripted_vendor "" hello_stream) sample_gemini [])
    as (Ha & _).
  destruct (stream_has_one_terminal_chunk
              (scripted_vendor "" (take 3 hello_stream)) sample_gemini [])
    as (_ & _ & _ & Hd).
  split; [|split; [|split]].
  - eapply Hc; reflexivity.
  - eapply Hb; [reflexivity | reflexivity |].
    exists (take 3 hello_stream), (finish_delta "stop").
    split; [reflexivity|]. split; [|reflexivity].
    repeat constructor.
  - eapply Ha; reflexivity.
  - erewrite (Hd _ "H"%char "el" "l"%char "o" "!"%char ""); reflexivity.
Defined.

(** C4 as stated fails on the OpenAI-compatible adapters: a vendor stream
    that delivers content and ends by exhaustion, with no finish signal,
    completes normally and yields no final chunk at all. *)
Lemma openai_cut_stream_has_no_terminal_chunk :
  raised (Provider.stream_chat (scripted_vendor "" cut_stream) sample_openai []).2
  = None
  /\ yielded (Provider.stream_chat (scripted_vendor "" cut_stream) sample_openai []).2
     = [mkStreamChunk "Hi" None false]
  /\ exactly_one_final_last
       (yielded (Provider.stream_chat (scripted_vendor "" cut_stream)
                                      sample_openai []).2) = false.
Proof. repeat split. Qed.

(** ** Error classification at the adapter boundary *)

Section error_boundary.
Import Provider.

Lemma handle_error_openai_classified name e :
  is_Some (classify (_handle_error_openai name e)).
Proof. unfold _handle_error_openai. destruct (exc_class e); simpl; eauto. Qed.

Lemma handle_error_gemini_classified importable e :
  is_Some (classify (_handle_error_gemini importable e)).
Proof.
  unfold _handle_error_gemini, isinstance_GoogleAPIError.
  destruct importable; simpl; [|eauto]. destruct (exc_class e); simpl; eauto.
Qed.

(** Whatever a handler is given, it raises one of the three classes. *)
Lemma handle_error_classified v p e : is_Some (classify (_handle_error v p e)).
Proof.
  unfold _handle_error. destruct (kind p);
    auto using handle_error_openai_classified, handle_error_gemini_classified.
Qed.

(** A blocking call that raises, raises what the handler made. *)
Lemma chat_raises_handled v p msgs x :
  (chat v p msgs).2 = Raise x -> exists e, x = _handle_error v p e.
Proof.
  unfold chat, chat_openai, chat_gemini.
  destruct (kind p); cbn [snd].
  - destruct (create v _) as [response|e]; [|intros [= <-]; eauto].
    destruct (choices response); [intros [= <-]; eauto | discriminate].
  - destruct (create v _) as [response|e]; [|intros [= <-]; eauto].
    destruct (choices response); [intros [= <-]; eauto | discriminate].
  - destruct (generate_content v _) as [response|e];
      [discriminate | intros [= <-]; eauto].
Qed.

Lemma stream_chat_raises_handled v p msgs x :
  raised (stream_chat v p msgs).2 = Some x -> exists e, x = _handle_error v p e.
Proof.
  unfold stream_chat, stream_chat_openai, stream_chat_gemini.
  destruct (kind p); cbn [snd raised].
  - destruct (failure (create_stream v _)) as [e|]; cbn [option_map];
      [intros [= <-]; eauto | discriminate].
  - destruct (failure (create_stream v _)) as [e|]; cbn [option_map];
      [intros [= <-]; eauto | discriminate].
  - destruct (failure (generate_content_stream v _)) as [e|]; cbn [raised];
      [intros [= <-]; eauto | discriminate].
Qed.

End error_boundary.

(** C6. On every adapter, whatever exception the vendor client raises
    during [chat] or while [stream_chat] is iterated, the call raises the
    handler's conversion of it, and that is exactly one of
    [AuthenticationError], [RateLimitError] and [APIError]; nothing else ever
    leaves [chat] or [stream_chat].  When the vendor rejects the credential,
    the adapter raises [AuthenticationError] with status code 401. *)
Theorem adapter_errors_are_classified
    (v : Vendor) (p : Provider.t) (msgs : list Message) :
  (forall r e, (Provider.chat v p msgs).1 = [ToOpenAI r] ->
               create v r = inr e ->
               (Provider.chat v p msgs).2 = Raise (Provider._handle_error v p e))
  /\ (forall r e, (Provider.chat v p msgs).1 = [ToGemini r] ->
                  generate_content v r = inr e ->
                  (Provider.chat v p msgs).2 = Raise (Provider._handle_error v p e))
  /\ (forall r e, (Provider.stream_chat v p msgs).1 = [ToOpenAI r] ->
                  failure (create_stream v r) = Some e ->
                  raised (Provider.stream_chat v p msgs).2
                  = Some (Provider._handle_error v p e))
  /\ (forall r e, (Provider.stream_chat v p msgs).1 = [ToGemini r] ->
                  failure (generate_content_stream v r) = Some e ->
                  raised (Provider.stream_chat v p msgs).2
                  = Some (Provider._handle_error v p e))
  /\ (forall x, (Provider.chat v p msgs).2 = Raise x -> is_Some (classify x))
  /\ (forall x, raised (Provider.stream_chat v p msgs).2 = Some x ->
                is_Some (classify x))
  /\ (forall e, is_Some (classify (Provider._handle_error v p e)))
  /\ (forall e, vendor_auth_failure v (Provider.kind p) e = true ->
                classify (Provider._handle_error v p e) = Some IsAuthenticationError
                /\ status_of (Provider._handle_error v p e) = Some 401).
Proof.
  repeat apply conj.
  - unfold Provider.chat, Provider.chat_openai, Provider.chat_gemini.
    destruct (Provider.kind p); cbn; intros r e Hr He; simplify_eq;
      rewrite He; reflexivity.
  - unfold Provider.chat, Provider.chat_openai, Provider.chat_gemini.
    destruct (Provider.kind p); cbn; intros r e Hr He; simplify_eq;
      rewrite He; reflexivity.
  - unfold Provider.stream_chat, Provider.stream_chat_openai,
      Provider.stream_chat_gemini.
    destruct (Provider.kind p); cbn; intros r e Hr He; simplify_eq;
      rewrite He; reflexivity.
  - unfold Provider.stream_chat, Provider.stream_chat_openai,
      Provider.stream_chat_gemini.
    destruct (Provider.kind p); cbn; intros r e Hr He; simplify_eq;
      rewrite He; reflexivity.
  - intros x Hx. destruct (chat_raises_handled _ _ _ _ Hx) as [e ->].
    apply handle_error_classified.
  - intros x Hx. destruct (stream_chat_raises_handled _ _ _ _ Hx) as [e ->].
    apply handle_error_classified.
  - apply handle_error_classified.
  - intros e. unfold vendor_auth_failure, Provider._handle_error,
      Provider._handle_error_openai, Provider._handle_error_gemini.
    destruct (Provider.kind p), (exc_class e); cbn; try discriminate;
      try (intros ->; cbn); auto.
Qed.

Lemma adapter_errors_are_classified_witness :
  (Provider.chat rejecting_vendor sample_openai []).2
  = Raise (AuthenticationError "Invalid API key or unauthorized access" (Some 401))
  /\ (Provider.chat rejecting_vendor sample_gemini []).2
     = Raise (AuthenticationError "Invalid Gemini API key or unauthorized access"
                                  (Some 401))
  /\ raised (Provider.stream_chat rejecting_vendor sample_openai []).2
     = Some (AuthenticationError "Invalid API key or unauthorized access" (Some 401))
  /\ raised (Provider.stream_chat rejecting_vendor sample_gemini []).2
     = Some (AuthenticationError "Invalid Gemini API key or unauthorized access"
                                 (Some 401))
  /\ is_Some (classify (APIError "Failed to connect to OpenAI API: Connection error."
                                 None))
  /\ status_of (Provider._handle_error rejecting_vendor sample_gemini
                  (mkExc Unauthenticated "401 API key not valid" (Some 401)))
     = Some 401.
Proof.
  destruct (adapter_errors_are_classified rejecting_vendor sample_openai [])
    as (Hchat & _ & Hstream & _).
  destruct (adapter_errors_are_classified rejecting_vendor sample_gemini [])
    as (_ & Hgchat & _ & Hgstream & _ & _ & _ & Hauth).
  destruct (adapter_errors_are_classified unreachable_vendor sample_openai [])
    as (_ & _ & _ & _ & Hcls & Hscls & _).
  split; [|split; [|split; [|split; [|split]]]].
  - rewrite (Hchat _ (mkExc OpenAIAuthError "Error code: 401" (Some 401))
                     eq_refl eq_refl).
    reflexivity.
  - rewrite (Hgchat _ (mkExc Unauthenticated "401 API key not valid" (Some 401))
                      eq_refl eq_refl).
    reflexivity.
  - rewrite (Hstream _ (mkExc OpenAIAuthError "Error code: 401" (Some 401))
                       eq_refl eq_refl).
    reflexivity.
  - rewrite (Hgstream _ (mkExc Unauthenticated "401 API key not valid" (Some 401))
                        eq_refl eq_refl).
    reflexivity.
  - pose proof (Hscls (APIError "Failed to connect to OpenAI API: Connection error."
                                None) eq_refl) as _.
    apply (Hcls (APIError "Failed to connect to OpenAI API: Connection error." None)).
    reflexivity.
  - apply (Hauth (mkExc Unauthenticated "401 API key not valid" (Some 401))).
    reflexivity.
Defined.

(** ** Effective settings of a provider *)

Section effective_settings.
Import Provider.

Lemma str_or_empty b : str_or (Some "") b = b.
Proof. reflexivity. Qed.

Lemma str_or_nonempty c s b : str_or (Some (String c s)) b = String c s.
Proof. reflexivity. Qed.

(** [OpenAIProvider] never touches the model it is given, empty or not. *)
Lemma openai_effective_model cfg p :
  OpenAIProvider cfg = Ok p -> Config.model (config p) = Config.model cfg.
Proof.
  unfold OpenAIProvider, Config.new.
  destruct (Config.class cfg); try (intros [= <-]; reflexivity);
    destruct (Config.valid _); intros [= <-]; reflexivity.
Qed.

(** [DeepSeekProvider] replaces an empty model by the default, when it
    converts the settings. *)
Lemma deepseek_effective_model cfg p :
  Config.class cfg <> Config.DeepSeekConfig ->
  DeepSeekProvider cfg = Ok p ->
  Config.model (config p)
  = str_or (Some (Config.model cfg)) Config.DeepSeekConfig_model_default.
Proof.
  unfold DeepSeekProvider, Config.new. intros Hc.
  destruct (Config.class cfg); try congruence;
    destruct (Config.valid _); intros [= <-]; reflexivity.
Qed.

(** Both replace an absent or empty endpoint by their default, and keep the
    caller's otherwise. *)
Lemma openai_effective_base_url cfg p :
  Config.class cfg <> Config.OpenAIConfig ->
  OpenAIProvider cfg = Ok p ->
  Config.base_url (config p)
  = Some (str_or (Config.base_url cfg) Config.OpenAIConfig_base_url_default).
Proof.
  unfold OpenAIProvider, Config.new. intros Hc.
  destruct (Config.class cfg); try congruence;
    destruct (Config.valid _); intros [= <-]; reflexivity.
Qed.

Lemma deepseek_effective_base_url cfg p :
  Config.class cfg <> Config.DeepSeekConfig ->
  DeepSeekProvider cfg = Ok p ->
  Config.base_url (config p)
  = Some (str_or (Config.base_url cfg) Config.DeepSeekConfig_base_url_default).
Proof.
  unfold DeepSeekProvider, Config.new. intros Hc.
  destruct (Config.class cfg); try congruence;
    destruct (Config.valid _); intros [= <-]; reflexivity.
Qed.

End effective_settings.

(** C3, evaluated on the code.  A facade built for ["openai"] with no model
    given hands [OpenAIProvider] settings whose model is the empty string,
    and the provider keeps it: its effective model is [""], not
    ["gpt-4o-mini"].  Its endpoint does fall back to the default, and the
    same construction for ["deepseek"] falls back on both. *)
Theorem openai_keeps_empty_model :
  (exists u,
     Client.__init__ Registry.PROVIDERS (Client.default_args "openai" "sk-test") = Ok u
     /\ Config.model (Provider.config (Client._provider u)) = ""
     /\ Config.model (Provider.config (Client._provider u))
        <> Config.OpenAIConfig_model_default
     /\ Config.base_url (Provider.config (Client._provider u))
        = Some Config.OpenAIConfig_base_url_default)
  /\ (exists u,
        Client.__init__ Registry.PROVIDERS (Client.default_args "deepseek" "sk-test") = Ok u
        /\ Config.model (Provider.config (Client._provider u))
           = Config.DeepSeekConfig_model_default
        /\ Config.base_url (Provider.config (Client._provider u))
           = Some Config.DeepSeekConfig_base_url_default).
Proof.
  split; eexists; (split; [reflexivity|]); repeat split; discriminate.
Qed.

(** ** The provider registry *)

Section registry_facts.
Import Registry.



Lemma get_set_eq d k c : get (set d k c) k = Some c.
Proof.
  induction d as [|[k' c'] d IH]; simpl.
  - rewrite String.eqb_refl. reflexivity.
  - destruct (String.eqb k' k) eqn:E; simpl; rewrite E; [reflexivity | exact IH].
Qed.

Lemma get_set_ne d k c k' : k <> k' -> get (set d k c) k' = get d k'.
Proof.
  intros Hne. induction d as [|[k0 c0] d IH]; simpl.
  - destruct (String.eqb_spec k k'); [contradiction | reflexivity].
  - destruct (String.eqb_spec k0 k) as [-> | Hk]; simpl.
    + destruct (String.eqb_spec k k'); [contradiction | reflexivity].
    + rewrite IH. reflexivity.
Qed.











Lemma get_provider_found d name c :
  get d (lower name) = Some c -> get_provider d name = Ok c.
Proof. unfold get_provider. intros ->. reflexivity. Qed.


End registry_facts.





(** ** The facade *)

Section facade_facts.
Import Client.

(** What [chat] does, step by step: the user message is stored, the
    provider is called on the stored messages, and only a reply stores an
    assistant message. *)
Lemma chat_steps v message s :
  let u1 := with_memory (self s)
              (Memory.add_user_message (_memory (self s)) message) in
  let call := Provider.chat v (_provider (self s)) (Memory.messages (_memory u1)) in
  chat v message s
  = match call.2 with
    | Ok response =>
        (Ok (resp_content response),
         {| self := with_memory u1
                      (Memory.add_assistant_message (_memory u1)
                                                    (resp_content response));
            wire := wire s ++ call.1 |})
    | Raise e => (Raise e, {| self := u1; wire := wire s ++ call.1 |})
    end.
Proof.
  unfold chat, bind, on_memory, update, read, send, ret. cbn.
  destruct (Provider.chat v _ _) as [sent [response | e]]; reflexivity.
Qed.

Lemma stream_steps v message s :
  let u1 := with_memory (self s)
              (Memory.add_user_message (_memory (self s)) message) in
  let call := Provider.stream_chat v (_provider (self s))
                                   (Memory.messages (_memory u1)) in
  let texts := full_response (yielded call.2) in
  stream v message s
  = match raised call.2 with
    | None =>
        ({| yielded := texts; raised := None |},
         {| self := with_memory u1
                      (Memory.add_assistant_message (_memory u1) (join "" texts));
            wire := wire s ++ call.1 |})
    | Some e =>
        ({| yielded := texts; raised := Some e |},
         {| self := u1; wire := wire s ++ call.1 |})
    end.
Proof.
  unfold stream, on_memory, update, send. cbn.
  destruct (Provider.stream_chat v _ _) as [sent [chunks [e|]]]; reflexivity.
Qed.

(** The requests of the OpenAI-compatible adapters. *)
Lemma openai_chat_request v p msgs :
  openai_compatible (Provider.kind p) = true ->
  exists q, (Provider.chat v p msgs).1 = [ToOpenAI q]
            /\ req_messages q = Provider._prepare_messages p msgs
            /\ req_stream q = false.
Proof.
  unfold Provider.chat. destruct (Provider.kind p); [| |discriminate];
    intros _; eexists; repeat split.
Qed.

Lemma openai_stream_request v p msgs :
  openai_compatible (Provider.kind p) = true ->
  exists q, (Provider.stream_chat v p msgs).1 = [ToOpenAI q]
            /\ req_messages q = Provider._prepare_messages p msgs
            /\ req_stream q = true.
Proof.
  unfold Provider.stream_chat. destruct (Provider.kind p); [| |discriminate];
    intros _; eexists; repeat split.
Qed.

Lemma if_truthy_effective {A} (f : string -> A) o :
  if_truthy o f = if_truthy (effective_directive o) f.
Proof.
  destruct o as [s|]; [|reflexivity]. simpl.
  destruct (String.eqb s "") eqn:E; simpl; [reflexivity|]. rewrite E. reflexivity.
Qed.

Lemma if_truthy_map {A B} (g : A -> B) (f : string -> A) o :
  map g (if_truthy o f) = if_truthy o (fun s => g (f s)).
Proof.
  destruct o as [s|]; [|reflexivity]. simpl.
  destruct (String.eqb s ""); reflexivity.
Qed.

(** When the provider's directive and the memory's amount to the same, the
    prepared entries are the converted context. *)
Lemma prepare_is_context p m :
  effective_directive (Config.system_prompt (Provider.config p))
  = effective_directive (Memory.system_prompt m) ->
  Provider._prepare_messages p (Memory.messages m)
  = map to_dict (Memory.get_context m).
Proof.
  intros H. unfold Provider._prepare_messages, Memory.get_context.
  rewrite map_app, if_truthy_map. unfold Memory.messages. f_equal.
  rewrite (if_truthy_effective _ (Config.system_prompt _)), H.
  rewrite <- if_truthy_effective. reflexivity.
Qed.

(** The two built-in constructors copy the directive they are given and
    build an adapter of the OpenAI protocol. *)
Lemma builtin_constructor_directive name ctor cfg p :
  Registry.get Registry.PROVIDERS name = Some ctor ->
  ctor cfg = Ok p ->
  Config.system_prompt (Provider.config p) = Config.system_prompt cfg
  /\ openai_compatible (Provider.kind p) = true.
Proof.
  unfold Registry.PROVIDERS. cbn [Registry.get].
  destruct (String.eqb "openai" name); [intros [= <-]|].
  - unfold Provider.OpenAIProvider, Config.new.
    destruct (Config.class cfg); try (intros [= <-]; split; reflexivity);
      destruct (Config.valid _); intros [= <-]; split; reflexivity.
  - destruct (String.eqb "deepseek" name); [intros [= <-]|discriminate].
    unfold Provider.DeepSeekProvider, Config.new.
    destruct (Config.class cfg); try (intros [= <-]; split; reflexivity);
      destruct (Config.valid _); intros [= <-]; split; reflexivity.
Qed.

Lemma create_provider_builtin name cfg p :
  _create_provider Registry.PROVIDERS name cfg = Ok p ->
  Config.system_prompt (Provider.config p) = Config.system_prompt cfg
  /\ openai_compatible (Provider.kind p) = true.
Proof.
  unfold _create_provider, Registry.get_provider.
  destruct (Registry.get Registry.PROVIDERS (lower name)) as [ctor|] eqn:Hget;
    [|discriminate].
  destruct (ctor cfg) as [q|e] eqn:Hq.
  - intros [= <-]. eapply builtin_constructor_directive; eassumption.
  - destruct (isinstance_ValueError e); discriminate.
Qed.

(** A facade built from the built-in registry starts with one directive in
    both places. *)
Lemma init_directives_agree a u :
  __init__ Registry.PROVIDERS a = Ok u ->
  Config.system_prompt (Provider.config (_provider u))
  = Memory.system_prompt (_memory u)
  /\ openai_compatible (Provider.kind (_provider u)) = true.
Proof.
  unfold __init__, Config.new.
  destruct (Config.valid (init_settings a)); [|discriminate].
  destruct (_create_provider _ _ _) as [p|e] eqn:Hp; [|discriminate].
  intros [= <-]. cbn. apply create_provider_builtin in Hp. exact Hp.
Qed.

End facade_facts.

(** ** What reaches the vendor *)

Lemma chat_keeps_provider v message s :
  Client._provider (Client.self (Client.chat v message s).2)
  = Client._provider (Client.self s)
  /\ Memory.system_prompt (Client._memory (Client.self (Client.chat v message s).2))
     = Memory.system_prompt (Client._memory (Client.self s)).
Proof.
  rewrite chat_steps. cbv zeta.
  destruct (Provider.chat v _ _).2; cbn; unfold Memory.system_prompt,
    Memory.add_assistant_message, Memory.add_user_message;
    rewrite ?add_message_prompt; split; reflexivity.
Qed.

Lemma stream_keeps_provider v message s :
  Client._provider (Client.self (Client.stream v message s).2)
  = Client._provider (Client.self s)
  /\ Memory.system_prompt (Client._memory (Client.self (Client.stream v message s).2))
     = Memory.system_prompt (Client._memory (Client.self s)).
Proof.
  rewrite stream_steps. cbv zeta.
  destruct (raised (Provider.stream_chat v _ _).2); cbn; unfold Memory.system_prompt,
    Memory.add_assistant_message, Memory.add_user_message;
    rewrite ?add_message_prompt; split; reflexivity.
Qed.

(** C1, as the code has it.  On a facade whose provider is one of the
    OpenAI-compatible adapters, every [chat] and every [stream] call hands
    the vendor exactly one request, whose entries are the provider settings'
    directive (if not empty) as one system entry, followed by every stored
    message, the new user message included, in order, each converted by
    [to_dict].  These entries are the converted [get_context()] of the
    memory whenever the provider's directive and the memory's amount to the
    same.  They do for a facade just built from the built-in registry, and
    [chat] and [stream] change neither the provider nor the memory's
    directive. *)
Theorem wire_is_directive_then_history
    (v : Vendor) (message : string) (s : Client.State) :
  let u := Client.self s in
  let p := Client._provider u in
  let m1 := Memory.add_user_message (Client._memory u) message in
  let entries :=
    if_truthy (Config.system_prompt (Provider.config p)) (mkWire "system")
    ++ map to_dict (Memory.messages m1) in
  openai_compatible (Provider.kind p) = true ->
  (exists q, wire_of_chat v message s = [ToOpenAI q] /\ req_messages q = entries)
  /\ (exists q, wire_of_stream v message s = [ToOpenAI q] /\ req_messages q = entries)
  /\ (effective_directive (Config.system_prompt (Provider.config p))
      = effective_directive (Memory.system_prompt (Client._memory u)) ->
      entries = map to_dict (Memory.get_context m1))
  /\ (forall a u0, Client.__init__ Registry.PROVIDERS a = Ok u0 ->
        Config.system_prompt (Provider.config (Client._provider u0))
        = Memory.system_prompt (Client._memory u0)
        /\ openai_compatible (Provider.kind (Client._provider u0)) = true)
  /\ (Client._provider (Client.self (Client.chat v message s).2) = p
      /\ Memory.system_prompt (Client._memory (Client.self (Client.chat v message s).2))
         = Memory.system_prompt (Client._memory u))
  /\ (Client._provider (Client.self (Client.stream v message s).2) = p
      /\ Memory.system_prompt (Client._memory (Client.self (Client.stream v message s).2))
         = Memory.system_prompt (Client._memory u)).
Proof.
  intros u p m1 entries Hk.
  split; [|split; [|split; [|split; [|split]]]].
  - destruct (openai_chat_request v p (Memory.messages m1) Hk) as (q & Hq & Hm & _).
    exists q. split; [|exact Hm].
    unfold wire_of_chat. rewrite chat_steps. cbv zeta. fold u p m1.
    change (Client._memory (Client.with_memory u m1)) with m1.
    destruct (Provider.chat v p (Memory.messages m1)) as [sent r].
    simpl in Hq. subst sent. destruct r; cbn; apply drop_app_length.
  - destruct (openai_stream_request v p (Memory.messages m1) Hk) as (q & Hq & Hm & _).
    exists q. split; [|exact Hm].
    unfold wire_of_stream. rewrite stream_steps. cbv zeta. fold u p m1.
    change (Client._memory (Client.with_memory u m1)) with m1.
    destruct (Provider.stream_chat v p (Memory.messages m1)) as [sent r].
    simpl in Hq. subst sent. cbn [fst snd].
    destruct (raised r); cbn; apply drop_app_length.
  - intros Hsame. apply (prepare_is_context p m1).
    unfold m1, Memory.add_user_message, Memory.system_prompt.
    rewrite add_message_prompt. exact Hsame.
  - intros a u0. apply init_directives_agree.
  - apply chat_keeps_provider.
  - apply stream_keeps_provider.
Qed.

Example briefed_facade_is_built :
  Client.__init__ Registry.PROVIDERS briefed_args = Ok briefed_facade.
Proof. reflexivity. Qed.

Example plain_facade_is_built :
  Client.__init__ Registry.PROVIDERS (Client.default_args "openai" "sk-test")
  = Ok plain_facade.
Proof. reflexivity. Qed.

Example terse_facade_is_switched :
  Client.switch_provider Registry.PROVIDERS "deepseek" "sk-test" None None true
                         terse_kwargs (Client.mkState plain_facade [])
  = (Ok tt, Client.mkState terse_facade []).
Proof. reflexivity. Qed.

Lemma wire_is_directive_then_history_witness :
  openai_compatible (Provider.kind (Client._provider briefed_facade)) = true
  /\ (exists q,
        wire_of_chat (scripted_vendor "Hello." []) "hi"
                     (Client.mkState briefed_facade []) = [ToOpenAI q]
        /\ req_messages q = [mkWire "system" "Be brief."; mkWire "user" "hi"])
  /\ (exists q,
        wire_of_stream (scripted_vendor "Hello." []) "hi"
                       (Client.mkState briefed_facade []) = [ToOpenAI q]
        /\ req_messages q = [mkWire "system" "Be brief."; mkWire "user" "hi"])
  /\ [mkWire "system" "Be brief."; mkWire "user" "hi"]
     = map to_dict
         (Memory.get_context
            (Memory.add_user_message (Client._memory briefed_facade) "hi"))
  /\ Config.system_prompt (Provider.config (Client._provider briefed_facade))
     = Memory.system_prompt (Client._memory briefed_facade).
Proof.
  destruct (wire_is_directive_then_history
              (scripted_vendor "Hello." []) "hi"
              (Client.mkState briefed_facade []) eq_refl)
    as (Hchat & Hstream & Hctx & Hinit & _).
  split; [reflexivity|]. split; [exact Hchat|]. split; [exact Hstream|].
  split; [exact (Hctx eq_refl)|].
  exact (proj1 (Hinit briefed_args briefed_facade eq_refl)).
Defined.

(** C1 as stated fails: after
    [switch_provider("deepseek", "sk-test", system_prompt="Be terse.")] on a
    facade built without a directive, [chat("hi")] sends the entry of the
    new provider's directive, which the memory does not have: what is sent
    differs from the converted [get_context()]. *)
Lemma overridden_directive_is_sent_not_context :
  Client.__init__ Registry.PROVIDERS (Client.default_args "openai" "sk-test")
  = Ok plain_facade
  /\ Client.switch_provider Registry.PROVIDERS "deepseek" "sk-test" None None true
                            terse_kwargs (Client.mkState plain_facade [])
     = (Ok tt, Client.mkState terse_facade [])
  /\ exists q,
       wire_of_chat (scripted_vendor "Hello." []) "hi"
                    (Client.mkState terse_facade []) = [ToOpenAI q]
       /\ req_messages q = [mkWire "system" "Be terse."; mkWire "user" "hi"]
       /\ map to_dict
            (Memory.get_context
               (Memory.add_user_message (Client._memory terse_facade) "hi"))
          = [mkWire "user" "hi"]
       /\ req_messages q
          <> map to_dict
               (Memory.get_context
                  (Memory.add_user_message (Client._memory terse_facade) "hi")).
Proof.
  split; [reflexivity|]. split; [reflexivity|].
  eexists. split; [reflexivity|]. split; [reflexivity|].
  split; [reflexivity|]. discriminate.
Qed.

(** ** What a call leaves in the memory *)

Lemma append_nil_r (s : string) : s +:+ "" = s.
Proof.
  induction s as [|c s IH]; [reflexivity|].
  change (String c (s +:+ "") = String c s). f_equal. exact IH.
Qed.

Lemma join_empty_cons x l : join "" (x :: l) = x +:+ join "" l.
Proof.
  unfold join. destruct l as [|y l]; simpl; [rewrite append_nil_r|]; reflexivity.
Qed.

(** Empty contents add nothing to a concatenation. *)
Lemma join_nonempty l :
  join "" (List.filter (fun c => negb (String.eqb c "")) l) = join "" l.
Proof.
  induction l as [|x l IH]; [reflexivity|].
  cbn [List.filter]. destruct (String.eqb_spec x "") as [-> | Hx]; cbn [negb].
  - rewrite IH, join_empty_cons. reflexivity.
  - rewrite !join_empty_cons, IH. reflexivity.
Qed.

Lemma last_lastn {A} (k : nat) (l : list A) x :
  (1 <= k)%nat -> last (lastn k (l ++ [x])) = Some x.
Proof.
  intros Hk. unfold lastn. rewrite length_app. simpl.
  rewrite drop_app_le by lia. apply last_snoc.
Qed.

(** With no bound, or a bound of at least one message, the message just
    appended is the last one stored. *)
Lemma add_message_last m x :
  match Memory._max_messages m with Some b => 1 <= b | None => True end ->
  last (Memory.messages (Memory._add_message m x)) = Some x.
Proof.
  unfold Memory.messages. destruct (Memory._max_messages m) as [b|] eqn:Hb; intros H.
  - rewrite (add_message_bounded m x (Z.to_nat b))
      by (rewrite Hb; f_equal; lia).
    apply last_lastn. lia.
  - rewrite add_message_unbounded by exact Hb. apply last_snoc.
Qed.

(** C9.  When the provider's [chat] raises during a facade [chat(message)],
    the facade raises that same exception, and the memory it leaves is the
    one it had with the user message appended to it and nothing else: the
    append is not undone and no assistant message is added.  With no bound
    the stored messages are the earlier ones followed by the user message;
    with any bound of at least one message the user message is the last one
    stored. *)
Theorem chat_failure_keeps_user_message
    (v : Vendor) (message : string) (s : Client.State) (e : exn) :
  let u := Client.self s in
  let m1 := Memory.add_user_message (Client._memory u) message in
  let call := Provider.chat v (Client._provider u) (Memory.messages m1) in
  call.2 = Raise e ->
  Client.chat v message s
  = (Raise e, {| Client.self := Client.with_memory u m1;
                 Client.wire := Client.wire s ++ call.1 |})
  /\ m1 = Memory.appends (Client._memory u) [(USER, message)]
  /\ (Memory._max_messages (Client._memory u) = None ->
      Memory.messages m1
      = Memory.messages (Client._memory u) ++ [mkMessage USER message])
  /\ (match Memory._max_messages (Client._memory u) with
      | Some b => 1 <= b
      | None => True
      end ->
      last (Memory.messages m1) = Some (mkMessage USER message)).
Proof.
  intros u m1 call Hcall.
  split; [|split; [reflexivity|split]].
  - rewrite chat_steps. cbv zeta. fold u m1.
    change (Client._memory (Client.with_memory u m1)) with m1.
    fold call. rewrite Hcall. reflexivity.
  - intros Hb. apply add_message_unbounded, Hb.
  - apply add_message_last.
Qed.

Lemma chat_failure_keeps_user_message_witness :
  Client.chat unreachable_vendor "hi" (Client.mkState briefed_facade [])
  = (Raise (APIError "Failed to connect to OpenAI API: Connection error." None),
     {| Client.self :=
          Client.with_memory briefed_facade
            (Memory.mk [mkMessage USER "hi"] None (Some "Be brief."));
        Client.wire :=
          [ToOpenAI (mkOpenAIRequest "gpt-4o"
                       [mkWire "system" "Be brief."; mkWire "user" "hi"]
                       1 None false)] |})
  /\ Memory.messages (Memory.add_user_message (Client._memory briefed_facade) "hi")
     = [mkMessage USER "hi"]
  /\ last (Memory.messages
             (Memory.add_user_message (Client._memory briefed_facade) "hi"))
     = Some (mkMessage USER "hi").
Proof.
  destruct (chat_failure_keeps_user_message
              unreachable_vendor "hi" (Client.mkState briefed_facade [])
              (APIError "Failed to connect to OpenAI API: Connection error." None)
              eq_refl)
    as (Hchat & _ & Hplain & Hlast).
  split; [exact Hchat|]. split; [exact (Hplain eq_refl) | exact (Hlast I)].
Defined.

(** C5.  A facade [stream(message)] iterated to its end.  If the
    provider's chunk sequence completes normally, the memory it leaves is the
    one it had after two appends: the user message, then one assistant
    message whose content is the concatenation, in order, of the non-empty
    chunk contents (which is the concatenation of all chunk contents); with
    no bound the stored messages are the earlier ones followed by exactly
    these two.  If the provider raises in mid-stream, the facade raises the
    same exception after the texts already yielded, and the memory it leaves
    has had the user message appended and nothing else: no assistant message
    is recorded. *)
Theorem stream_records_assistant_once
    (v : Vendor) (message : string) (s : Client.State) :
  let u := Client.self s in
  let m0 := Client._memory u in
  let m1 := Memory.add_user_message m0 message in
  let call := Provider.stream_chat v (Client._provider u) (Memory.messages m1) in
  let texts := Client.full_response (yielded call.2) in
  let reply := join "" texts in
  (raised call.2 = None ->
     Client.stream v message s
     = ({| yielded := texts; raised := None |},
        {| Client.self :=
             Client.with_memory u
               (Memory.appends m0 [(USER, message); (ASSISTANT, reply)]);
           Client.wire := Client.wire s ++ call.1 |})
     /\ reply = join "" (map chunk_content (yielded call.2))
     /\ (Memory._max_messages m0 = None ->
         Memory.messages
           (Memory.appends m0 [(USER, message); (ASSISTANT, reply)])
         = Memory.messages m0
           ++ [mkMessage USER message; mkMessage ASSISTANT reply]))
  /\ (forall e, raised call.2 = Some e ->
        Client.stream v message s
        = ({| yielded := texts; raised := Some e |},
           {| Client.self :=
                Client.with_memory u (Memory.appends m0 [(USER, message)]);
              Client.wire := Client.wire s ++ call.1 |})
        /\ (Memory._max_messages m0 = None ->
            Memory.messages (Memory.appends m0 [(USER, message)])
            = Memory.messages m0 ++ [mkMessage USER message])).
Proof.
  intros u m0 m1 call texts reply. split.
  - intros Hend. split; [|split].
    + rewrite stream_steps. cbv zeta. fold u m0 m1.
      change (Client._memory (Client.with_memory u m1)) with m1.
      fold call. rewrite Hend. reflexivity.
    + apply join_nonempty.
    + intros Hb. unfold Memory.messages.
      rewrite (appends_unbounded _ m0 Hb). reflexivity.
  - intros e He. split.
    + rewrite stream_steps. cbv zeta. fold u m0 m1.
      change (Client._memory (Client.with_memory u m1)) with m1.
      fold call. rewrite He. reflexivity.
    + intros Hb. unfold Memory.messages.
      rewrite (appends_unbounded _ m0 Hb). reflexivity.
Qed.

Lemma stream_records_assistant_once_witness :
  (Client.stream (scripted_vendor "" hello_stream) "hi"
                 (Client.mkState briefed_facade [])).1
  = {| yielded := ["Hel"; "lo"; "!"]; raised := None |}
  /\ Memory.messages
       (Client._memory
          (Client.self
             (Client.stream (scripted_vendor "" hello_stream) "hi"
                            (Client.mkState briefed_facade [])).2))
     = [mkMessage USER "hi"; mkMessage ASSISTANT "Hello!"]
  /\ Memory.messages
       (Memory.appends (Client._memory briefed_facade)
                       [(USER, "hi"); (ASSISTANT, "Hello!")])
     = [mkMessage USER "hi"; mkMessage ASSISTANT "Hello!"]
  /\ (Client.stream (breaking_vendor (take 2 hello_stream) connection_refused) "hi"
                    (Client.mkState briefed_facade [])).1
     = {| yielded := ["Hel"; "lo"];
          raised := Some (APIError
                            "Failed to connect to OpenAI API: Connection error."
                            None) |}
  /\ Memory.messages
       (Client._memory
          (Client.self
             (Client.stream (breaking_vendor (take 2 hello_stream) connection_refused)
                            "hi" (Client.mkState briefed_facade [])).2))
     = [mkMessage USER "hi"]
  /\ Memory.messages (Memory.appends (Client._memory briefed_facade) [(USER, "hi")])
     = [mkMessage USER "hi"].
Proof.
  destruct (stream_records_assistant_once
              (scripted_vendor "" hello_stream) "hi"
              (Client.mkState briefed_facade []))
    as (Hdone & _).
  destruct (Hdone eq_refl) as (Hrun & _ & Hboth).
  destruct (stream_records_assistant_once
              (breaking_vendor (take 2 hello_stream) connection_refused) "hi"
              (Client.mkState briefed_facade []))
    as (_ & Hfail).
  destruct (Hfail _ eq_refl) as (Hbroken & Hone).
  split; [rewrite Hrun; reflexivity|].
  split; [rewrite Hrun; reflexivity|].
  split; [exact (Hboth eq_refl)|].
  split; [rewrite Hbroken; reflexivity|].
  split; [rewrite Hbroken; reflexivity|].
  exact (Hone eq_refl).
Defined.

(** ** Switching provider *)

Lemma switch_provider_steps d name api_key model base_url keep_history kwargs s :
  let u := Client.self s in
  let settings := Client.switch_settings u api_key model base_url kwargs in
  let renamed :=
    {| Client._provider_name := lower name;
       Client._provider := Client._provider u;
       Client._memory := Client._memory u |} in
  Client.switch_provider d name api_key model base_url keep_history kwargs s
  = match Config.new settings with
    | Raise e => (Raise e, s)
    | Ok config =>
        match Client._create_provider d (lower name) config with
        | Raise e => (Raise e, {| Client.self := renamed; Client.wire := Client.wire s |})
        | Ok p =>
            (Ok tt,
             {| Client.self :=
                  {| Client._provider_name := lower name;
                     Client._provider := p;
                     Client._memory :=
                       if keep_history then Client._memory u
                       else Memory.clear (Client._memory u) |};
                Client.wire := Client.wire s |})
        end
    end.
Proof.
  unfold Client.switch_provider, Client.bind, Client.read, Client.lift,
    Client.set_provider_name, Client.set_provider, Client.on_memory,
    Client.update, Client.ret.
  cbn [fst snd Client.self Client.wire].
  destruct (Config.new _) as [config|e]; [|destruct s; reflexivity].
  destruct (Client._create_provider d (lower name) config) as [p|e];
    [|reflexivity].
  destruct keep_history; reflexivity.
Qed.

(** C8.  Whatever the facade's state, [switch_provider] with
    [keep_history = true] leaves [get_history()] as it was, and with
    [keep_history = false] a switch that is carried out leaves it empty; a
    switch that raises (unknown provider, rejected settings) has cleared
    nothing.  In every case the memory keeps its directive and its bound and
    nothing is sent to a vendor; a switch that is carried out changes only
    the provider, the provider name and, when asked to, the stored
    messages. *)
Theorem switch_provider_history
    (d : Registry.t) (name api_key : string) (model base_url : option string)
    (keep_history : bool) (kwargs : Client.Kwargs) (s : Client.State) :
  let u := Client.self s in
  let after :=
    Client.switch_provider d name api_key model base_url keep_history kwargs s in
  let u' := Client.self after.2 in
  Client.wire after.2 = Client.wire s
  /\ Memory.system_prompt (Client._memory u') = Memory.system_prompt (Client._memory u)
  /\ Memory._max_messages (Client._memory u') = Memory._max_messages (Client._memory u)
  /\ (keep_history = true -> Client.get_history u' = Client.get_history u)
  /\ match after.1 with
     | Ok _ =>
         Client.get_history u'
         = (if keep_history then Client.get_history u else [])
         /\ Client._memory u'
            = (if keep_history then Client._memory u
               else Memory.clear (Client._memory u))
         /\ Client._provider_name u' = lower name
         /\ exists config,
              Client._create_provider d (lower name) config
              = Ok (Client._provider u')
     | Raise _ =>
         Client.get_history u' = Client.get_history u
         /\ Client._memory u' = Client._memory u
         /\ Client._provider u' = Client._provider u
     end.
Proof.
  intros u after u'. subst after u'. rewrite switch_provider_steps. cbv zeta.
  destruct (Config.new _) as [config|e]; cbn.
  - destruct (Client._create_provider d (lower name) config) as [p|e] eqn:Hp; cbn.
    + destruct keep_history; cbn; repeat split; eauto; discriminate.
    + repeat split.
  - repeat split.
Qed.

Example chatted_facade_has_chatted :
  Client.chat (scripted_vendor "Hello." []) "hi" (Client.mkState plain_facade [])
  = (Ok "Hello.",
     {| Client.self := chatted_facade;
        Client.wire :=
          [ToOpenAI (mkOpenAIRequest "" [mkWire "user" "hi"] 1 None false)] |}).
Proof. reflexivity. Qed.

Lemma switch_provider_history_witness :
  Client.get_history
    (Client.self
       (Client.switch_provider Registry.PROVIDERS "DeepSeek" "sk-test" None None
                               true Client.no_kwargs
                               (Client.mkState chatted_facade [])).2)
  = [mkWire "user" "hi"; mkWire "assistant" "Hello."]
  /\ Client.get_history
       (Client.self
          (Client.switch_provider Registry.PROVIDERS "DeepSeek" "sk-test" None None
                                  false Client.no_kwargs
                                  (Client.mkState chatted_facade [])).2)
     = [].
Proof.
  destruct (switch_provider_history
              Registry.PROVIDERS "DeepSeek" "sk-test" None None true
              Client.no_kwargs (Client.mkState chatted_facade []))
    as (_ & _ & _ & Hkeep & _).
  destruct (switch_provider_history
              Registry.PROVIDERS "DeepSeek" "sk-test" None None false
              Client.no_kwargs (Client.mkState chatted_facade []))
    as (_ & _ & _ & _ & Hdrop).
  split.
  - rewrite (Hkeep eq_refl). reflexivity.
  - change (Client.switch_provider Registry.PROVIDERS "DeepSeek" "sk-test" None
              None false Client.no_kwargs (Client.mkState chatted_facade [])).1
      with (@Ok unit tt) in Hdrop.
    destruct Hdrop as (Hempty & _). exact Hempty.
Defined.

(** * Further properties *)

(** ** Conversation memory: bound, eviction, undo *)

Section memory_more.
Import Memory.
Implicit Types (m : Memory.t) (x : Message) (a : Role * string).

Lemma add_message_within m x : within_bound (_add_message m x).
Proof.
  unfold within_bound, __len__. rewrite add_message_max.
  destruct (_max_messages m) as [b|] eqn:Hb; [|exact I].
  unfold _add_message, _enforce_limit. cbn [_max_messages with_messages]. rewrite Hb.
  cbn [_messages with_messages].
  destruct (Z.gtb_spec (len (_messages m ++ [x])) b) as [Hgt | Hle].
  - cbn [_messages with_messages]. unfold len, slice_from in *.
    rewrite length_drop. lia.
  - cbn [_messages with_messages]. unfold len in *. lia.
Qed.

Lemma appends_snoc m l a : appends m (l ++ [a]) = append (appends m l) a.
Proof. unfold appends. rewrite foldl_app. reflexivity. Qed.

Lemma appends_prompt m l : _system_prompt (appends m l) = _system_prompt m.
Proof.
  revert m. induction l as [|a l IH]; intros m; [reflexivity|].
  change (appends m (a :: l)) with (appends (append m a) l).
  rewrite IH, append_is_add_message. apply add_message_prompt.
Qed.

(** An append that does not overflow only appends. *)
Lemma add_message_fits m x :
  match _max_messages m with
  | Some b => len (_messages m) < b
  | None => True
  end ->
  _add_message m x = with_messages m (_messages m ++ [x]).
Proof.
  intros H. unfold _add_message, _enforce_limit. cbn [_max_messages with_messages].
  destruct (_max_messages m) as [b|]; [|reflexivity].
  cbn [_messages with_messages].
  destruct (Z.gtb_spec (len (_messages m ++ [x])) b) as [Hgt | Hle]; [|reflexivity].
  unfold len in *. rewrite length_app in Hgt. simpl in Hgt. lia.
Qed.

Lemma pop_last_after_fitting_append m x :
  match _max_messages m with
  | Some b => len (_messages m) < b
  | None => True
  end ->
  pop_last (_add_message m x) = (Some x, m).
Proof.
  intros H. rewrite (add_message_fits m x H).
  unfold pop_last. cbn [_messages with_messages].
  destruct (_messages m ++ [x]) as [|y k] eqn:E.
  - destruct (_messages m); discriminate.
  - rewrite <- E, last_snoc, length_app. simpl.
    replace (length (_messages m) + 1 - 1)%nat
      with (length (_messages m)) by lia.
    rewrite take_app_length. destruct m; reflexivity.
Qed.

End memory_more.

(** X1.  Once a message has been appended to a bounded memory, however many
    messages it held before and whatever follows, the number of stored
    messages is at most the bound (none at all under a negative bound). *)
Theorem appends_never_exceed_bound
    (m : Memory.t) (b : Z) (a : Role * string) (l : list (Role * string)) :
  Memory._max_messages m = Some b ->
  Memory.__len__ (Memory.appends m (a :: l)) <= Z.max 0 b.
Proof.
  intros Hb.
  destruct (exists_last (l := a :: l)) as (l' & a' & ->); [discriminate|].
  rewrite appends_snoc, append_is_add_message.
  pose proof (add_message_within (Memory.appends m l') (Memory.appended a')) as H.
  unfold within_bound in H.
  rewrite add_message_max, appends_max, Hb in H. exact H.
Qed.

Lemma appends_never_exceed_bound_witness :
  Memory.__len__
    (Memory.appends
       (Memory.mk [mkMessage USER "1"; mkMessage USER "2"; mkMessage USER "3"]
                  (Some 1) None)
       [(ASSISTANT, "4"); (USER, "5")])
  <= Z.max 0 1.
Proof.
  apply (appends_never_exceed_bound
           (Memory.mk [mkMessage USER "1"; mkMessage USER "2"; mkMessage USER "3"]
                      (Some 1) None)
           1 (ASSISTANT, "4") [(USER, "5")]).
  reflexivity.
Defined.

(** X2.  Appends that fit under the bound evict nothing: with no bound, or
    while the stored messages plus the new ones number at most the bound,
    the memory afterwards holds all it held followed by all the new
    messages, in order. *)
Theorem appends_within_bound_keep_all
    (m : Memory.t) (l : list (Role * string)) :
  match Memory._max_messages m with
  | Some b => Memory.__len__ m + len l <= b
  | None => True
  end ->
  Memory.messages (Memory.appends m l)
  = Memory.messages m ++ map Memory.appended l.
Proof.
  unfold Memory.messages, Memory.__len__.
  induction l as [|a l IH] using rev_ind; intros H.
  - simpl. rewrite app_nil_r. reflexivity.
  - rewrite appends_snoc, append_is_add_message, map_app, app_assoc.
    assert (Hl : match Memory._max_messages m with
                 | Some b => len (Memory._messages m) + len l <= b
                 | None => True
                 end).
    { destruct (Memory._max_messages m); [|exact I].
      unfold len in *. rewrite length_app in H. simpl in H. lia. }
    rewrite add_message_fits.
    + cbn [Memory._messages Memory.with_messages]. rewrite (IH Hl). reflexivity.
    + rewrite appends_max, (IH Hl).
      destruct (Memory._max_messages m); [|exact I].
      unfold len in *. rewrite !length_app, length_map in *. simpl in H. lia.
Qed.

Lemma appends_within_bound_keep_all_witness :
  Memory.messages
    (Memory.appends (Memory.mk [mkMessage USER "1"] (Some 3) None)
                    [(ASSISTANT, "2"); (USER, "3")])
  = [mkMessage USER "1"; mkMessage ASSISTANT "2"; mkMessage USER "3"].
Proof.
  apply (appends_within_bound_keep_all
           (Memory.mk [mkMessage USER "1"] (Some 3) None)
           [(ASSISTANT, "2"); (USER, "3")]).
  vm_compute. discriminate.
Defined.

(** X3.  [pop_last] undoes an append that evicted nothing: with no bound,
    or with fewer stored messages than the bound, appending a message and
    popping returns that message and the memory exactly as it was. *)
Theorem pop_last_undoes_append (m : Memory.t) (x : Message) :
  match Memory._max_messages m with
  | Some b => Memory.__len__ m < b
  | None => True
  end ->
  Memory.pop_last (Memory._add_message m x) = (Some x, m).
Proof. apply pop_last_after_fitting_append. Qed.

Lemma pop_last_undoes_append_witness :
  Memory.pop_last
    (Memory.add_user_message (Memory.mk [mkMessage USER "1"] (Some 2) (Some "d")) "2")
  = (Some (mkMessage USER "2"), Memory.mk [mkMessage USER "1"] (Some 2) (Some "d")).
Proof.
  apply (pop_last_undoes_append
           (Memory.mk [mkMessage USER "1"] (Some 2) (Some "d")) (mkMessage USER "2")).
  reflexivity.
Defined.

(** X4.  [pop_last] on an empty memory returns nothing and changes nothing;
    otherwise it returns the newest message and leaves the others, in order.
    It never touches the bound or the directive. *)
Theorem pop_last_removes_newest (m : Memory.t) :
  match Memory.pop_last m with
  | (None, m') => Memory.messages m = [] /\ m' = m
  | (Some x, m') =>
      Memory.messages m = Memory.messages m' ++ [x]
      /\ Memory._max_messages m' = Memory._max_messages m
      /\ Memory.system_prompt m' = Memory.system_prompt m
  end.
Proof.
  unfold Memory.pop_last, Memory.messages.
  destruct (Memory._messages m) as [|y k] eqn:E; [split; reflexivity|].
  destruct (exists_last (l := y :: k)) as (l' & x & Hl); [discriminate|].
  rewrite Hl, last_snoc, length_app. simpl.
  replace (length l' + 1 - 1)%nat with (length l') by lia.
  rewrite take_app_length. repeat split.
Qed.

(** X5.  The directive plays no part in what is stored: appends store the
    same messages whatever the directive is set to, and leave the directive
    as it is; the context is the stored messages plus at most one entry. *)
Theorem directive_is_not_stored
    (m : Memory.t) (o : option string) (l : list (Role * string)) :
  Memory.messages (Memory.appends (Memory.set_system_prompt m o) l)
  = Memory.messages (Memory.appends m l)
  /\ Memory.system_prompt (Memory.appends m l) = Memory.system_prompt m
  /\ length (Memory.get_context (Memory.appends m l))
     = (length (Memory.messages (Memory.appends m l))
        + (if truthy (Memory.system_prompt m) then 1 else 0))%nat.
Proof.
  split; [|split].
  - unfold Memory.messages.
    induction l as [|a l IH] using rev_ind; [reflexivity|].
    rewrite !appends_snoc, !append_is_add_message.
    unfold Memory._add_message, Memory._enforce_limit.
    cbn [Memory._max_messages Memory._messages Memory.with_messages].
    rewrite !appends_max, IH. cbn [Memory._max_messages Memory.set_system_prompt].
    destruct (Memory._max_messages m) as [b|]; [|reflexivity].
    destruct (_ >? _); reflexivity.
  - apply appends_prompt.
  - unfold Memory.get_context, Memory.messages, Memory.system_prompt.
    rewrite length_app, appends_prompt.
    destruct (Memory._system_prompt m) as [s|]; [|simpl; lia].
    simpl. destruct (String.eqb s ""); simpl; lia.
Qed.

(** ** Registry: registration and lookup *)

Section registry_more.
Import Registry.

Lemma keys_set_present d k c : k ∈ keys d -> keys (set d k c) = keys d.
Proof.
  induction d as [|[k' c'] d IH]; simpl; intros Hin.
  - by apply elem_of_nil in Hin.
  - destruct (String.eqb_spec k' k) as [-> | Hne]; [reflexivity|].
    simpl. f_equal. apply IH.
    apply elem_of_cons in Hin as [-> | Hin]; [contradiction | exact Hin].
Qed.

Lemma keys_set_absent d k c : k ∉ keys d -> keys (set d k c) = keys d ++ [k].
Proof.
  induction d as [|[k' c'] d IH]; simpl; intros Hnin; [reflexivity|].
  apply not_elem_of_cons in Hnin as [Hne Hnin].
  destruct (String.eqb_spec k' k) as [-> | _]; [contradiction|].
  simpl. f_equal. apply IH, Hnin.
Qed.

End registry_more.

(** X6.  Registration then lookup: after [register_provider(name, cls)],
    looking up any spelling of [name] that differs in the case of letters
    only returns [cls], whatever was registered under that name before (the
    last registration wins). *)
Theorem register_then_lookup
    (d : Registry.t) (name query : string) (cls : Registry.Constructor) :
  lower query = lower name ->
  Registry.get_provider (Registry.register_provider d name cls) query = Ok cls.
Proof.
  intros Heq. apply get_provider_found. unfold Registry.register_provider.
  rewrite Heq. apply get_set_eq.
Qed.

Lemma register_then_lookup_witness :
  Registry.get_provider
    (Registry.register_provider
       (Registry.register_provider Registry.PROVIDERS "Gemini"
                                   Provider.OpenAIProvider)
       "GEMINI" (Provider.GeminiProvider "gemini-pro"))
    "gemini"
  = Ok (Provider.GeminiProvider "gemini-pro").
Proof.
  apply (register_then_lookup
           (Registry.register_provider Registry.PROVIDERS "Gemini"
                                       Provider.OpenAIProvider)
           "GEMINI" "gemini" (Provider.GeminiProvider "gemini-pro")).
  reflexivity.
Defined.

(** X7.  A registration leaves every other name alone: for ASCII names,
    and a query that is not the registered name up to case, the registry
    finds what it found before, so every lookup that succeeded still succeeds
    with the same class. *)
Theorem register_keeps_other_names
    (d : Registry.t) (name query : string) (cls : Registry.Constructor) :
  is_ascii name = true ->
  is_ascii query = true ->
  lower query <> lower name ->
  Registry.get (Registry.register_provider d name cls) (lower query)
  = Registry.get d (lower query)
  /\ (forall c, Registry.get_provider d query = Ok c ->
                Registry.get_provider (Registry.register_provider d name cls) query
                = Ok c).
Proof.
  intros _ _ Hne.
  assert (Hget : Registry.get (Registry.register_provider d name cls) (lower query)
                 = Registry.get d (lower query)).
  { unfold Registry.register_provider. apply get_set_ne. congruence. }
  split; [exact Hget|].
  intros c. unfold Registry.get_provider. rewrite Hget.
  destruct (Registry.get d (lower query)); [auto | discriminate].
Qed.

Lemma register_keeps_other_names_witness :
  Registry.get_provider
    (Registry.register_provider Registry.PROVIDERS "Gemini"
                                (Provider.GeminiProvider "gemini-pro"))
    "OpenAI"
  = Ok Provider.OpenAIProvider.
Proof.
  destruct (register_keeps_other_names
              Registry.PROVIDERS "Gemini" "OpenAI"
              (Provider.GeminiProvider "gemini-pro") eq_refl eq_refl)
    as (_ & Hkeep); [discriminate|].
  apply Hkeep. reflexivity.
Defined.

(** X8.  The names the error message lists: registering an ASCII name that
    is already a key (up to case) leaves the list of keys as it is, order
    included; registering a new one adds its lower-case spelling at the end.
    No key is ever listed twice. *)
Theorem register_keys
    (d : Registry.t) (name : string) (cls : Registry.Constructor) :
  is_ascii name = true ->
  (lower name ∈ Registry.keys d ->
   Registry.keys (Registry.register_provider d name cls) = Registry.keys d)
  /\ (lower name ∉ Registry.keys d ->
      Registry.keys (Registry.register_provider d name cls)
      = Registry.keys d ++ [lower name])
  /\ (NoDup (Registry.keys d) ->
      NoDup (Registry.keys (Registry.register_provider d name cls))).
Proof.
  intros _. unfold Registry.register_provider. split; [|split].
  - apply keys_set_present.
  - apply keys_set_absent.
  - intros Hnd. destruct (decide (lower name ∈ Registry.keys d)) as [Hin | Hnin].
    + rewrite keys_set_present by exact Hin. exact Hnd.
    + rewrite keys_set_absent by exact Hnin.
      apply NoDup_app. split; [exact Hnd|]. split.
      * intros k Hk Hk'. apply list_elem_of_singleton in Hk'. subst k. contradiction.
      * apply NoDup_singleton.
Qed.

Lemma register_keys_witness :
  Registry.keys (Registry.register_provider Registry.PROVIDERS "DeepSeek"
                                            Provider.OpenAIProvider)
  = ["openai"; "deepseek"]
  /\ Registry.keys (Registry.register_provider Registry.PROVIDERS "Gemini"
                                              Provider.OpenAIProvider)
     = ["openai"; "deepseek"; "gemini"]
  /\ NoDup (Registry.keys (Registry.register_provider Registry.PROVIDERS "Gemini"
                                                     Provider.OpenAIProvider)).
Proof.
  destruct (register_keys Registry.PROVIDERS "DeepSeek" Provider.OpenAIProvider
                          eq_refl)
    as (Hsame & _).
  destruct (register_keys Registry.PROVIDERS "Gemini" Provider.OpenAIProvider
                          eq_refl)
    as (_ & Hnew & Hnd).
  split; [|split].
  - apply Hsame. apply list_elem_of_further, list_elem_of_here.
  - apply Hnew. intros Hin.
    apply elem_of_cons in Hin as [Hin | Hin]; [discriminate|].
    apply elem_of_cons in Hin as [Hin | Hin]; [discriminate|].
    by apply elem_of_nil in Hin.
  - apply Hnd. repeat constructor.
    + intros Hin. apply elem_of_cons in Hin as [Hin | Hin]; [discriminate|].
      by apply elem_of_nil in Hin.
    + intros Hin. by apply elem_of_nil in Hin.
Defined.

(** ** Adapters: construction *)

Section construction_more.
Import Provider.

Lemma valid_converted (c c' : Config.t) :
  Config.valid c = true ->
  Config.timeout c' = Config.timeout c ->
  Config.max_retries c' = Config.max_retries c ->
  Config.temperature c' = Config.temperature c ->
  Config.max_tokens c' = Config.max_tokens c ->
  match Config.class c' with
  | Config.OpenAIConfig | Config.DeepSeekConfig => is_Some (Config.base_url c')
  | Config.ClaudeConfig => False
  | _ => True
  end ->
  Config.valid c' = true.
Proof.
  unfold Config.valid. intros H -> -> -> -> Hc.
  repeat (apply andb_prop in H as [H ?]).
  repeat (apply andb_true_intro; split); try assumption.
  destruct (Config.class c'); try reflexivity; try contradiction;
    apply bool_decide_eq_true_2, Hc.
Qed.

Lemma constructor_of_valid k d cfg :
  Config.valid cfg = true ->
  exists p, constructor_of k d cfg = Ok p
            /\ kind p = k
            /\ carried (config p) = carried cfg
            /\ Config.valid (config p) = true.
Proof.
  intros Hv.
  destruct k; unfold constructor_of, OpenAIProvider, DeepSeekProvider, GeminiProvider.
  all: destruct (Config.class cfg) eqn:Hc;
    try (eexists; split; [reflexivity|]; repeat split; exact Hv).
  all: unfold Config.new;
    match goal with
    | |- context [Config.valid ?c'] =>
        assert (Hv' : Config.valid c' = true)
          by (apply (valid_converted cfg); cbn; eauto)
    end;
    rewrite Hv'; eexists; split; [reflexivity|]; repeat split; exact Hv'.
Qed.

Lemma constructor_of_kind k d cfg p :
  constructor_of k d cfg = Ok p ->
  kind p = k
  /\ Config.class (config p)
     = match k with
       | OpenAI => Config.OpenAIConfig
       | DeepSeek => Config.DeepSeekConfig
       | Gemini => Config.GeminiConfig
       end
  /\ carried (config p) = carried cfg.
Proof.
  destruct k; unfold constructor_of, OpenAIProvider, DeepSeekProvider,
    GeminiProvider, Config.new.
  all: destruct (Config.class cfg) eqn:Hc;
    try (intros [= <-]; repeat split; exact Hc);
    destruct (Config.valid _); try discriminate; intros [= <-]; repeat split.
Qed.

End construction_more.

(** X9.  Whenever an adapter's constructor returns a provider, from a
    settings object of any settings class, the provider is of the
    constructor's class, its settings are of the vendor's settings class, the
    credential, timeout, retry count, temperature, token cap and directive
    are those it was given, and settings that were valid are still valid. *)
Theorem constructors_keep_settings
    (k : Provider.Kind) (gemini_model_default : string) (cfg : Config.t)
    (p : Provider.t) :
  constructor_of k gemini_model_default cfg = Ok p ->
  Provider.kind p = k
  /\ Config.class (Provider.config p)
     = match k with
       | Provider.OpenAI => Config.OpenAIConfig
       | Provider.DeepSeek => Config.DeepSeekConfig
       | Provider.Gemini => Config.GeminiConfig
       end
  /\ carried (Provider.config p) = carried cfg
  /\ (Config.valid cfg = true -> Config.valid (Provider.config p) = true).
Proof.
  intros H.
  destruct (constructor_of_kind _ _ _ _ H) as (Hk & Hc & Hcar).
  split; [exact Hk|]. split; [exact Hc|]. split; [exact Hcar|].
  intros Hv.
  destruct (constructor_of_valid k gemini_model_default cfg Hv)
    as (p' & Hp' & _ & _ & Hv').
  rewrite H in Hp'. injection Hp' as <-. exact Hv'.
Qed.

Lemma constructors_keep_settings_witness :
  Provider.kind sample_openai = Provider.OpenAI
  /\ Config.class (Provider.config sample_openai) = Config.OpenAIConfig
  /\ carried (Provider.config sample_openai)
     = ("sk-test", 60%Q, 3, 1%Q, None, None)
  /\ Config.valid (Provider.config sample_openai) = true.
Proof.
  destruct (constructors_keep_settings
              Provider.OpenAI ""
              {| Config.class := Config.ProviderConfig;
                 Config.api_key := "sk-test";
                 Config.model := "gpt-4o";
                 Config.base_url := None;
                 Config.timeout := 60;
                 Config.max_retries := 3;
                 Config.temperature := 1;
                 Config.max_tokens := None;
                 Config.system_prompt := None |}
              sample_openai eq_refl)
    as (Hk & Hc & Hcar & Hv).
  split; [exact Hk|]. split; [exact Hc|]. split; [exact Hcar|].
  exact (Hv eq_refl).
Defined.

(** X10.  Constructing is idempotent: a provider's own settings are already
    of its settings class, so building a provider of the same class from
    them gives the same provider back, with no conversion and no default
    applied a second time. *)
Theorem constructors_are_idempotent
    (k : Provider.Kind) (gemini_model_default : string) (cfg : Config.t)
    (p : Provider.t) :
  constructor_of k gemini_model_default cfg = Ok p ->
  constructor_of k gemini_model_default (Provider.config p) = Ok p.
Proof.
  intros H. destruct (constructor_of_kind _ _ _ _ H) as (Hk & Hc & _).
  destruct p as [k' c]. cbn in *. subst k'.
  destruct k; unfold constructor_of, Provider.OpenAIProvider,
    Provider.DeepSeekProvider, Provider.GeminiProvider; rewrite Hc; reflexivity.
Qed.

Lemma constructors_are_idempotent_witness :
  Provider.OpenAIProvider (Provider.config sample_openai) = Ok sample_openai.
Proof.
  apply (constructors_are_idempotent
           Provider.OpenAI ""
           {| Config.class := Config.ProviderConfig;
              Config.api_key := "sk-test";
              Config.model := "gpt-4o";
              Config.base_url := None;
              Config.timeout := 60;
              Config.max_retries := 3;
              Config.temperature := 1;
              Config.max_tokens := None;
              Config.system_prompt := None |}
           sample_openai).
  reflexivity.
Defined.

(** ** Adapters: replies and streams *)

Section streams_more.
Import Provider.

Lemma string_append_assoc (a b c : string) : (a +:+ b) +:+ c = a +:+ (b +:+ c).
Proof.
  induction a as [|x a IH]; [reflexivity|].
  change (String x ((a +:+ b) +:+ c) = String x (a +:+ (b +:+ c))).
  f_equal. exact IH.
Qed.

Lemma join_empty_app l1 l2 : join "" (l1 ++ l2) = join "" l1 +:+ join "" l2.
Proof.
  induction l1 as [|x l1 IH]; [reflexivity|].
  change ((x :: l1) ++ l2) with (x :: (l1 ++ l2)).
  rewrite !join_empty_cons, IH, string_append_assoc. reflexivity.
Qed.

Lemma str_or_truthy o : truthy o = true -> default "" o = str_or o "".
Proof.
  destruct o as [s|]; [|discriminate]. simpl.
  destruct (String.eqb s ""); [discriminate | reflexivity].
Qed.

Lemma str_or_falsy o : truthy o = false -> str_or o "" = "".
Proof.
  destruct o as [s|]; [|reflexivity]. simpl.
  destruct (String.eqb s ""); [reflexivity | discriminate].
Qed.

(** One vendor chunk: the text it yields is the text it carries. *)
Lemma yield_of_chunk_content c :
  join "" (map chunk_content (yield_of_chunk c)) = first_content c.
Proof.
  unfold yield_of_chunk, first_content.
  destruct (chunk_choices c) as [|choice rest]; [reflexivity|].
  destruct (truthy (delta_content choice)) eqn:Ht.
  - cbn. apply str_or_truthy, Ht.
  - rewrite (str_or_falsy _ Ht).
    destruct (truthy (delta_finish_reason choice)); reflexivity.
Qed.

Lemma yield_of_text_content c :
  join "" (map chunk_content (yield_of_text c)) = text_of c.
Proof.
  unfold yield_of_text, text_of.
  destruct (truthy (chunk_text c)) eqn:Ht.
  - cbn. apply str_or_truthy, Ht.
  - rewrite (str_or_falsy _ Ht). reflexivity.
Qed.

Lemma yield_chunks_content l :
  join "" (map chunk_content (flat_map yield_of_chunk l))
  = join "" (map first_content l).
Proof.
  induction l as [|c l IH]; [reflexivity|].
  cbn [flat_map map]. rewrite map_app, join_empty_app, IH, join_empty_cons,
    yield_of_chunk_content. reflexivity.
Qed.

Lemma yield_texts_content l :
  join "" (map chunk_content (flat_map yield_of_text l))
  = join "" (map text_of l).
Proof.
  induction l as [|c l IH]; [reflexivity|].
  cbn [flat_map map]. rewrite map_app, join_empty_app, IH, join_empty_cons,
    yield_of_text_content. reflexivity.
Qed.

Lemma truthy_nonempty o : truthy o = true -> default "" o <> "".
Proof.
  destruct o as [s|]; [|discriminate]. simpl.
  destruct (String.eqb_spec s ""); [discriminate | auto].
Qed.

Lemma truthy_is_Some o : truthy o = true -> is_Some o.
Proof. destruct o; [eauto | discriminate]. Qed.

Lemma yield_of_chunk_well_formed c : Forall well_formed_chunk (yield_of_chunk c).
Proof.
  unfold yield_of_chunk.
  destruct (chunk_choices c) as [|choice rest]; [constructor|].
  destruct (truthy (delta_content choice)) eqn:Ht.
  - repeat constructor; cbn.
    + intros H. apply bool_decide_eq_true_1 in H. exact H.
    + intros H. apply bool_decide_eq_true_2, H.
    + intros _. apply truthy_nonempty, Ht.
  - destruct (truthy (delta_finish_reason choice)) eqn:Hf; [|constructor].
    repeat constructor; cbn.
    + intros _. apply truthy_is_Some, Hf.
    + discriminate.
Qed.

Lemma yield_of_text_well_formed c : Forall well_formed_chunk (yield_of_text c).
Proof.
  unfold yield_of_text. destruct (truthy (chunk_text c)) eqn:Ht; [|constructor].
  repeat constructor; cbn.
  - discriminate.
  - intros [x Hx]. discriminate.
  - intros _. apply truthy_nonempty, Ht.
Qed.

Lemma yield_of_chunk_at_most_one c : (length (yield_of_chunk c) <= 1)%nat.
Proof.
  unfold yield_of_chunk. destruct (chunk_choices c); [simpl; lia|].
  destruct (truthy _); [simpl; lia|]. destruct (truthy _); simpl; lia.
Qed.

Lemma yield_of_text_at_most_one c : (length (yield_of_text c) <= 1)%nat.
Proof. unfold yield_of_text. destruct (truthy _); simpl; lia. Qed.

Lemma flat_map_at_most_one {A B} (f : A -> list B) l :
  (forall x, (length (f x) <= 1)%nat) -> (length (flat_map f l) <= length l)%nat.
Proof.
  intros Hf. induction l as [|x l IH]; [simpl; lia|].
  cbn [flat_map]. rewrite length_app. specialize (Hf x). simpl. lia.
Qed.

End streams_more.

(** X11.  A reply of the OpenAI protocol that has no choices does not
    crash the adapter: [chat] raises [APIError], without a status code, whose
    message is the vendor's name, [" API error: "] and the text of the
    [IndexError].  A reply with a first choice always gives a response, whose
    content is the empty string when the choice carries none. *)
Theorem chat_reply_without_choices
    (v : Vendor) (p : Provider.t) (msgs : list Message)
    (q : OpenAIRequest) (response : Completion) :
  (Provider.chat v p msgs).1 = [ToOpenAI q] ->
  create v q = inl response ->
  match choices response with
  | [] =>
      (Provider.chat v p msgs).2
      = Raise (APIError (Provider.label (Provider.kind p)
                         +:+ " API error: list index out of range") None)
  | choice :: _ =>
      exists r, (Provider.chat v p msgs).2 = Ok r
                /\ resp_content r = str_or (message_content choice) ""
                /\ (message_content choice = None -> resp_content r = "")
                /\ resp_model r = completion_model response
                /\ resp_usage r = usage response
                /\ resp_finish_reason r = choice_finish_reason choice
  end.
Proof.
  unfold Provider.chat, Provider.chat_openai, Provider.chat_gemini,
    Provider._handle_error.
  destruct (Provider.kind p) eqn:Hk; cbn [fst snd]; intros [= <-] Hc;
    rewrite ?Hk; try rewrite Hc;
    destruct (choices response) as [|choice rest]; try reflexivity;
    eexists; (split; [reflexivity|]); cbn; repeat split; intros ->; reflexivity.
Qed.

Lemma chat_reply_without_choices_witness :
  (Provider.chat
     {| create := fun r => inl (mkCompletion [] (req_model r) None);
        create_stream := fun _ => mkVendorStream [] None;
        generate_content := fun _ => inr connection_refused;
        generate_content_stream := fun _ => mkVendorStream [] None;
        google_api_core := true |}
     sample_openai []).2
  = Raise (APIError "OpenAI API error: list index out of range" None).
Proof.
  exact (chat_reply_without_choices
           {| create := fun r => inl (mkCompletion [] (req_model r) None);
              create_stream := fun _ => mkVendorStream [] None;
              generate_content := fun _ => inr connection_refused;
              generate_content_stream := fun _ => mkVendorStream [] None;
              google_api_core := true |}
           sample_openai [] _ (mkCompletion [] "gpt-4o" None) eq_refl eq_refl).
Defined.

(** X12.  No text is lost or altered in a stream: on every adapter, and
    whether or not the vendor stream ends in an exception, the concatenation
    of the contents of the chunks yielded is the concatenation of the texts
    the vendor chunks carried (for the OpenAI protocol, the content of each
    chunk's first choice). *)
Theorem stream_chat_preserves_text
    (v : Vendor) (p : Provider.t) (msgs : list Message) :
  (forall q, (Provider.stream_chat v p msgs).1 = [ToOpenAI q] ->
             join "" (map chunk_content (yielded (Provider.stream_chat v p msgs).2))
             = join "" (map first_content (items (create_stream v q))))
  /\ (forall q, (Provider.stream_chat v p msgs).1 = [ToGemini q] ->
                join "" (map chunk_content (yielded (Provider.stream_chat v p msgs).2))
                = join "" (map text_of (items (generate_content_stream v q)))).
Proof.
  unfold Provider.stream_chat, Provider.stream_chat_openai,
    Provider.stream_chat_gemini.
  destruct (Provider.kind p); cbn [fst snd]; split; intros q [= <-];
    try apply yield_chunks_content.
  destruct (failure (generate_content_stream v _)); cbn [yielded].
  - apply yield_texts_content.
  - rewrite map_app, join_empty_app, yield_texts_content. cbn.
    apply append_nil_r.
Qed.

Lemma stream_chat_preserves_text_witness :
  join "" (map chunk_content
             (yielded (Provider.stream_chat (scripted_vendor "" hello_stream)
                                            sample_openai []).2))
  = "Hello!"
  /\ join "" (map chunk_content
                (yielded (Provider.stream_chat
                            (breaking_vendor hello_stream connection_refused)
                            sample_gemini []).2))
     = "Hello!".
Proof.
  destruct (stream_chat_preserves_text
              (scripted_vendor "" hello_stream) sample_openai [])
    as (Ho & _).
  destruct (stream_chat_preserves_text
              (breaking_vendor hello_stream connection_refused) sample_gemini [])
    as (_ & Hg).
  split.
  - rewrite (Ho _ eq_refl). reflexivity.
  - rewrite (Hg _ eq_refl). reflexivity.
Defined.

(** X13.  Every chunk any adapter yields is flagged final exactly when it
    carries a finish reason, and carries some text unless it is final; and an
    adapter yields at most one chunk for each chunk of the vendor, plus, on
    Gemini, the terminal chunk it adds. *)
Theorem stream_chat_chunks_well_formed
    (v : Vendor) (p : Provider.t) (msgs : list Message) :
  Forall well_formed_chunk (yielded (Provider.stream_chat v p msgs).2)
  /\ (forall q, (Provider.stream_chat v p msgs).1 = [ToOpenAI q] ->
                (length (yielded (Provider.stream_chat v p msgs).2)
                 <= length (items (create_stream v q)))%nat)
  /\ (forall q, (Provider.stream_chat v p msgs).1 = [ToGemini q] ->
                (length (yielded (Provider.stream_chat v p msgs).2)
                 <= length (items (generate_content_stream v q)) + 1)%nat).
Proof.
  unfold Provider.stream_chat, Provider.stream_chat_openai,
    Provider.stream_chat_gemini.
  destruct (Provider.kind p); cbn [fst snd]; (split; [|split]);
    try (intros q [= <-]);
    try (apply Forall_flat_map, Forall_forall; intros c _;
         apply yield_of_chunk_well_formed);
    try (apply flat_map_at_most_one, yield_of_chunk_at_most_one).
  - destruct (failure (generate_content_stream v _)); cbn [yielded].
    + apply Forall_flat_map, Forall_forall. intros c _.
      apply yield_of_text_well_formed.
    + apply Forall_app. split.
      * apply Forall_flat_map, Forall_forall. intros c _.
        apply yield_of_text_well_formed.
      * repeat constructor; cbn; [eauto | discriminate].
  - destruct (failure (generate_content_stream v _)); cbn [yielded].
    + pose proof (flat_map_at_most_one Provider.yield_of_text
                    (items (generate_content_stream v
                       {| gem_model := Config.model (Provider.config p);
                          gem_prompt := Provider._build_prompt p msgs;
                          gem_generation_config :=
                            Provider._get_generation_config p;
                          gem_streaming := true |}))
                    yield_of_text_at_most_one).
      lia.
    + rewrite length_app. simpl.
      pose proof (flat_map_at_most_one Provider.yield_of_text
                    (items (generate_content_stream v
                       {| gem_model := Config.model (Provider.config p);
                          gem_prompt := Provider._build_prompt p msgs;
                          gem_generation_config :=
                            Provider._get_generation_config p;
                          gem_streaming := true |}))
                    yield_of_text_at_most_one).
      lia.
Qed.

Lemma stream_chat_chunks_well_formed_witness :
  (length (yielded (Provider.stream_chat (scripted_vendor "" hello_stream)
                                         sample_openai []).2)
   <= 4)%nat
  /\ (length (yielded (Provider.stream_chat (scripted_vendor "" hello_stream)
                                            sample_gemini []).2)
      <= 4 + 1)%nat.
Proof.
  destruct (stream_chat_chunks_well_formed
              (scripted_vendor "" hello_stream) sample_openai [])
    as (_ & Ho & _).
  destruct (stream_chat_chunks_well_formed
              (scripted_vendor "" hello_stream) sample_gemini [])
    as (_ & _ & Hg).
  split; [exact (Ho _ eq_refl) | exact (Hg _ eq_refl)].
Defined.

(** X14.  The classes of the errors an adapter raises, read backwards: an
    [AuthenticationError] is raised for the vendor's credential rejection
    and for nothing else, a [RateLimitError] for the vendor's throttling
    exception and for nothing else, and that one has status code 429.  An
    [APIError] from the OpenAI-compatible adapters never has a status code;
    Gemini's has the [code] of the [GoogleAPIError] it converts, and none
    otherwise. *)
Theorem error_classes_read_backwards (v : Vendor) (p : Provider.t) (e : PyExc) :
  let raised_error := Provider._handle_error v p e in
  (classify raised_error = Some IsAuthenticationError
   <-> vendor_auth_failure v (Provider.kind p) e = true)
  /\ (classify raised_error = Some IsRateLimitError
      <-> vendor_throttling v (Provider.kind p) e = true)
  /\ (classify raised_error = Some IsRateLimitError ->
      status_of raised_error = Some 429)
  /\ (classify raised_error = Some IsAPIError ->
      status_of raised_error
      = match Provider.kind p, exc_class e with
        | Provider.Gemini, GoogleAPIError =>
            if google_api_core v then exc_code e else None
        | _, _ => None
        end).
Proof.
  unfold Provider._handle_error, Provider._handle_error_openai,
    Provider._handle_error_gemini, vendor_auth_failure, vendor_throttling,
    isinstance_GoogleAPIError.
  destruct (Provider.kind p), (exc_class e); cbn;
    try destruct (google_api_core v); cbn;
    repeat split; intros; try discriminate; reflexivity.
Qed.

(** X15.  Gemini's flattened prompt follows the shared preparation: it is
    the entries [_prepare_messages] produces, in the same order (directive
    first when there is one), one line each: the role's label, the content. *)
Theorem gemini_prompt_follows_preparation (p : Provider.t) (msgs : list Message) :
  Provider._build_prompt p msgs
  = join Provider.newline (map prompt_line (Provider._prepare_messages p msgs)).
Proof.
  unfold Provider._build_prompt, Provider._prepare_messages.
  rewrite map_app, if_truthy_map, map_map. f_equal. f_equal.
  apply map_ext. intros [[] c]; reflexivity.
Qed.

Lemma error_classes_read_backwards_witness :
  classify (Provider._handle_error unreachable_vendor sample_openai
              (mkExc OpenAIRateLimitError "Error code: 429" (Some 429)))
  = Some IsRateLimitError
  /\ status_of (Provider._handle_error unreachable_vendor sample_openai
                  (mkExc OpenAIRateLimitError "Error code: 429" (Some 429)))
     = Some 429
  /\ status_of (Provider._handle_error unreachable_vendor sample_gemini
                  (mkExc GoogleAPIError "503 unavailable" (Some 503)))
     = Some 503.
Proof.
  destruct (error_classes_read_backwards
              unreachable_vendor sample_openai
              (mkExc OpenAIRateLimitError "Error code: 429" (Some 429)))
    as (_ & Hrate & Hstatus & _).
  destruct (error_classes_read_backwards
              unreachable_vendor sample_gemini
              (mkExc GoogleAPIError "503 unavailable" (Some 503)))
    as (_ & _ & _ & Hcode).
  split; [|split].
  - apply Hrate. reflexivity.
  - apply Hstatus, Hrate. reflexivity.
  - rewrite Hcode; reflexivity.
Defined.

(** ** The facade: turns, streams, switches *)

Section facade_more.
Import Client.

Lemma chat_with_response_steps v message s :
  let u1 := with_memory (self s)
              (Memory.add_user_message (_memory (self s)) message) in
  let call := Provider.chat v (_provider (self s)) (Memory.messages (_memory u1)) in
  chat_with_response v message s
  = match call.2 with
    | Ok response =>
        (Ok response,
         {| self := with_memory u1
                      (Memory.add_assistant_message (_memory u1)
                                                    (resp_content response));
            wire := wire s ++ call.1 |})
    | Raise e => (Raise e, {| self := u1; wire := wire s ++ call.1 |})
    end.
Proof.
  unfold chat_with_response, bind, on_memory, update, read, send, ret. cbn.
  destruct (Provider.chat v _ _) as [sent [response | e]]; reflexivity.
Qed.

Lemma stream_with_chunks_steps v message s :
  let u1 := with_memory (self s)
              (Memory.add_user_message (_memory (self s)) message) in
  let call := Provider.stream_chat v (_provider (self s))
                                   (Memory.messages (_memory u1)) in
  let texts := full_response (yielded call.2) in
  stream_with_chunks v message s
  = match raised call.2 with
    | None =>
        ({| yielded := yielded call.2; raised := None |},
         {| self := with_memory u1
                      (Memory.add_assistant_message (_memory u1) (join "" texts));
            wire := wire s ++ call.1 |})
    | Some e =>
        ({| yielded := yielded call.2; raised := Some e |},
         {| self := u1; wire := wire s ++ call.1 |})
    end.
Proof.
  unfold stream_with_chunks, on_memory, update, send. cbn.
  destruct (Provider.stream_chat v _ _) as [sent [chunks [e|]]]; reflexivity.
Qed.

(** What one vendor chunk contributes to the texts the facade yields. *)
Lemma full_response_of_chunk c :
  full_response (Provider.yield_of_chunk c)
  = List.filter (fun t => negb (String.eqb t "")) [first_content c].
Proof.
  unfold full_response, Provider.yield_of_chunk, first_content.
  destruct (chunk_choices c) as [|choice rest]; [reflexivity|].
  destruct (truthy (delta_content choice)) eqn:Ht.
  - rewrite <- (str_or_truthy _ Ht). reflexivity.
  - rewrite (str_or_falsy _ Ht).
    destruct (truthy (delta_finish_reason choice)); reflexivity.
Qed.

Lemma full_response_app a b : full_response (a ++ b) = full_response a ++ full_response b.
Proof. unfold full_response. rewrite map_app, List.filter_app. reflexivity. Qed.

Lemma full_response_of_chunks l :
  full_response (flat_map Provider.yield_of_chunk l)
  = List.filter (fun t => negb (String.eqb t "")) (map first_content l).
Proof.
  induction l as [|c l IH]; [reflexivity|].
  cbn [flat_map map]. rewrite full_response_app, IH, full_response_of_chunk.
  change (first_content c :: map first_content l)
    with ([first_content c] ++ map first_content l).
  rewrite List.filter_app. reflexivity.
Qed.

(** The request of a [chat] on an OpenAI-compatible provider. *)
Lemma wire_of_chat_openai v message s :
  openai_compatible (Provider.kind (_provider (self s))) = true ->
  exists q,
    wire_of_chat v message s = [ToOpenAI q]
    /\ req_messages q
       = Provider._prepare_messages (_provider (self s))
           (Memory.messages (Memory.add_user_message (_memory (self s)) message)).
Proof.
  intros Hk.
  destruct (openai_chat_request v (_provider (self s))
              (Memory.messages (Memory.add_user_message (_memory (self s)) message))
              Hk) as (q & Hq & Hm & _).
  exists q. split; [|exact Hm].
  unfold wire_of_chat. rewrite chat_steps. cbv zeta.
  change (_memory (with_memory (self s) ?m)) with m.
  destruct (Provider.chat v _ _) as [sent r].
  simpl in Hq. subst sent. destruct r; cbn; apply drop_app_length.
Qed.

(** The built-in constructors carry the settings they are given. *)
Lemma create_provider_builtin_carried name cfg p :
  _create_provider Registry.PROVIDERS name cfg = Ok p ->
  carried (Provider.config p) = carried cfg.
Proof.
  unfold _create_provider, Registry.get_provider, Registry.PROVIDERS.
  cbn [Registry.get].
  destruct (String.eqb "openai" (lower name)).
  - destruct (Provider.OpenAIProvider cfg) as [q|e] eqn:Hq.
    + intros [= <-].
      exact (proj2 (proj2 (constructor_of_kind Provider.OpenAI "" cfg q Hq))).
    + destruct (isinstance_ValueError e); discriminate.
  - destruct (String.eqb "deepseek" (lower name)).
    + destruct (Provider.DeepSeekProvider cfg) as [q|e] eqn:Hq.
      * intros [= <-].
        exact (proj2 (proj2 (constructor_of_kind Provider.DeepSeek "" cfg q Hq))).
      * destruct (isinstance_ValueError e); discriminate.
    + discriminate.
Qed.

(** Each call keeps the memory's bound and directive, and a memory that fits
    its bound still does afterwards. *)
Lemma after_call_memory c s :
  Memory._max_messages (_memory (self (after_call c s)))
  = Memory._max_messages (_memory (self s))
  /\ Memory.system_prompt (_memory (self (after_call c s)))
     = Memory.system_prompt (_memory (self s))
  /\ (within_bound (_memory (self s)) ->
      within_bound (_memory (self (after_call c s)))).
Proof.
  unfold Memory.system_prompt.
  destruct c as [v message | v message | v message | v message
                 | d name key model base keep kwargs | ]; cbn [after_call].
  - rewrite chat_steps. cbv zeta.
    destruct (Provider.chat v _ _).2; cbn;
      unfold Memory.add_assistant_message, Memory.add_user_message;
      rewrite ?add_message_max, ?add_message_prompt;
      repeat split; intros _; apply add_message_within.
  - rewrite chat_with_response_steps. cbv zeta.
    destruct (Provider.chat v _ _).2; cbn;
      unfold Memory.add_assistant_message, Memory.add_user_message;
      rewrite ?add_message_max, ?add_message_prompt;
      repeat split; intros _; apply add_message_within.
  - rewrite stream_steps. cbv zeta.
    destruct (raised (Provider.stream_chat v _ _).2); cbn;
      unfold Memory.add_assistant_message, Memory.add_user_message;
      rewrite ?add_message_max, ?add_message_prompt;
      repeat split; intros _; apply add_message_within.
  - rewrite stream_with_chunks_steps. cbv zeta.
    destruct (raised (Provider.stream_chat v _ _).2); cbn;
      unfold Memory.add_assistant_message, Memory.add_user_message;
      rewrite ?add_message_max, ?add_message_prompt;
      repeat split; intros _; apply add_message_within.
  - rewrite switch_provider_steps. cbv zeta.
    destruct (Config.new _) as [config|e]; [|repeat split; auto].
    destruct (_create_provider d (lower name) config) as [p|e];
      [|repeat split; auto].
    destruct keep; cbn; repeat split; auto.
    intros _. unfold within_bound, Memory.__len__. cbn.
    destruct (Memory._max_messages _); [|exact I]. unfold len. cbn. lia.
  - cbn. repeat split. intros _.
    unfold within_bound, Memory.__len__. cbn.
    destruct (Memory._max_messages _); [|exact I]. unfold len. cbn. lia.
Qed.

End facade_more.

(** X16.  A [chat(message)] whose provider replies returns the reply's
    content, and leaves the memory it had after two appends: the user
    message, then an assistant message with that content.
    [chat_with_response] does the same and returns the whole response. *)
Theorem chat_success_records_turn
    (v : Vendor) (message : string) (s : Client.State) (r : ChatResponse) :
  let u := Client.self s in
  let m0 := Client._memory u in
  let call :=
    Provider.chat v (Client._provider u)
      (Memory.messages (Memory.add_user_message m0 message)) in
  let after :=
    {| Client.self :=
         Client.with_memory u
           (Memory.appends m0 [(USER, message); (ASSISTANT, resp_content r)]);
       Client.wire := Client.wire s ++ call.1 |} in
  call.2 = Ok r ->
  Client.chat v message s = (Ok (resp_content r), after)
  /\ Client.chat_with_response v message s = (Ok r, after).
Proof.
  intros u m0 call after Hcall. split.
  - rewrite chat_steps. cbv zeta. fold u m0.
    change (Client._memory (Client.with_memory u ?m)) with m.
    fold call. rewrite Hcall. reflexivity.
  - rewrite chat_with_response_steps. cbv zeta. fold u m0.
    change (Client._memory (Client.with_memory u ?m)) with m.
    fold call. rewrite Hcall. reflexivity.
Qed.

Lemma chat_success_records_turn_witness :
  Client.chat (scripted_vendor "Hello." []) "hi" (Client.mkState briefed_facade [])
  = (Ok "Hello.",
     {| Client.self :=
          Client.with_memory briefed_facade
            (Memory.mk [mkMessage USER "hi"; mkMessage ASSISTANT "Hello."]
                       None (Some "Be brief."));
        Client.wire :=
          [ToOpenAI (mkOpenAIRequest "gpt-4o"
                       [mkWire "system" "Be brief."; mkWire "user" "hi"]
                       1 None false)] |}).
Proof.
  exact (proj1 (chat_success_records_turn
                  (scripted_vendor "Hello." []) "hi"
                  (Client.mkState briefed_facade [])
                  (mkChatResponse "Hello." "gpt-4o" None (Some "stop")) eq_refl)).
Defined.

(** X17.  A completed [stream] on an OpenAI-compatible provider: the texts
    yielded are the non-empty contents the vendor chunks carried, in order,
    and the assistant message recorded after the user message is their
    concatenation. *)
Theorem stream_records_vendor_text
    (v : Vendor) (message : string) (s : Client.State) (q : OpenAIRequest) :
  let u := Client.self s in
  let m0 := Client._memory u in
  let call :=
    Provider.stream_chat v (Client._provider u)
      (Memory.messages (Memory.add_user_message m0 message)) in
  let carried_texts := map first_content (items (create_stream v q)) in
  call.1 = [ToOpenAI q] ->
  failure (create_stream v q) = None ->
  Client.stream v message s
  = ({| yielded := List.filter (fun t => negb (String.eqb t "")) carried_texts;
        raised := None |},
     {| Client.self :=
          Client.with_memory u
            (Memory.appends m0 [(USER, message);
                                (ASSISTANT, join "" carried_texts)]);
        Client.wire := Client.wire s ++ [ToOpenAI q] |}).
Proof.
  intros u m0 call carried_texts Hq Hend.
  rewrite stream_steps. cbv zeta. fold u m0.
  change (Client._memory (Client.with_memory u ?m)) with m.
  fold call. rewrite Hq. revert Hq. unfold call, Provider.stream_chat,
    Provider.stream_chat_openai, Provider.stream_chat_gemini.
  destruct (Provider.kind (Client._provider u)); cbn [fst snd];
    intros [= <-]; cbn [yielded raised]; rewrite Hend; cbn [option_map];
    rewrite full_response_of_chunks, join_nonempty; reflexivity.
Qed.

Lemma stream_records_vendor_text_witness :
  Client.stream (scripted_vendor "" hello_stream) "hi"
                (Client.mkState briefed_facade [])
  = ({| yielded := ["Hel"; "lo"; "!"]; raised := None |},
     {| Client.self :=
          Client.with_memory briefed_facade
            (Memory.mk [mkMessage USER "hi"; mkMessage ASSISTANT "Hello!"]
                       None (Some "Be brief."));
        Client.wire :=
          [ToOpenAI (mkOpenAIRequest "gpt-4o"
                       [mkWire "system" "Be brief."; mkWire "user" "hi"]
                       1 None true)] |}).
Proof.
  exact (stream_records_vendor_text
           (scripted_vendor "" hello_stream) "hi"
           (Client.mkState briefed_facade []) _ eq_refl eq_refl).
Defined.

(** X18.  [stream] is [stream_with_chunks] with the chunks reduced to their
    non-empty texts: both leave the same facade, memory and wire log, both
    end the same way (normally, or raising the same exception), and the
    texts of the one are the non-empty contents of the chunks of the other,
    in order. *)
Theorem stream_is_stream_with_chunks (v : Vendor) (message : string) (s : Client.State) :
  (Client.stream v message s).2 = (Client.stream_with_chunks v message s).2
  /\ raised (Client.stream v message s).1
     = raised (Client.stream_with_chunks v message s).1
  /\ yielded (Client.stream v message s).1
     = Client.full_response (yielded (Client.stream_with_chunks v message s).1).
Proof.
  rewrite stream_steps, stream_with_chunks_steps. cbv zeta.
  destruct (raised (Provider.stream_chat v _ _).2); repeat split.
Qed.

(** X19.  No call of the facade changes the memory's bound or its
    directive, and the history never outgrows the bound: over any run of
    [chat], [chat_with_response], [stream], [stream_with_chunks],
    [switch_provider] and [clear_history] calls, whatever each returns or
    raises, a memory that fits its bound still fits it.  A facade just
    constructed fits it. *)
Theorem facade_calls_keep_bound (l : list Call) (s : Client.State) :
  Memory._max_messages (Client._memory (Client.self (after_calls l s)))
  = Memory._max_messages (Client._memory (Client.self s))
  /\ Memory.system_prompt (Client._memory (Client.self (after_calls l s)))
     = Memory.system_prompt (Client._memory (Client.self s))
  /\ (within_bound (Client._memory (Client.self s)) ->
      within_bound (Client._memory (Client.self (after_calls l s))))
  /\ (forall d a u, Client.__init__ d a = Ok u -> within_bound (Client._memory u)).
Proof.
  assert (Hrun : forall l s,
            Memory._max_messages (Client._memory (Client.self (after_calls l s)))
            = Memory._max_messages (Client._memory (Client.self s))
            /\ Memory.system_prompt (Client._memory (Client.self (after_calls l s)))
               = Memory.system_prompt (Client._memory (Client.self s))
            /\ (within_bound (Client._memory (Client.self s)) ->
                within_bound (Client._memory (Client.self (after_calls l s))))).
  { clear. induction l as [|c l IH]; intros s; [repeat split; auto|].
    change (after_calls (c :: l) s) with (after_calls l (after_call c s)).
    destruct (IH (after_call c s)) as (Hb & Hp & Hw).
    destruct (after_call_memory c s) as (Hb' & Hp' & Hw').
    rewrite Hb, Hp. repeat split; auto. }
  destruct (Hrun l s) as (Hb & Hp & Hw). repeat split; auto.
  intros d a u. unfold Client.__init__.
  destruct (Config.new _); [|discriminate].
  destruct (Client._create_provider _ _ _); [|discriminate].
  intros [= <-]. unfold within_bound, Memory.__len__, len. cbn.
  destruct (Client.max_history a); [simpl; lia | exact I].
Qed.

Lemma facade_calls_keep_bound_witness :
  within_bound
    (Client._memory
       (Client.self
          (after_calls
             [CallChat (scripted_vendor "Hello." []) "one";
              CallStream (scripted_vendor "" hello_stream) "two";
              CallChat unreachable_vendor "three"]
             (Client.mkState
                (Client.with_memory plain_facade (Memory.init (Some 2) None)) [])))).
Proof.
  destruct (facade_calls_keep_bound
              [CallChat (scripted_vendor "Hello." []) "one";
               CallStream (scripted_vendor "" hello_stream) "two";
               CallChat unreachable_vendor "three"]
              (Client.mkState
                 (Client.with_memory plain_facade (Memory.init (Some 2) None)) []))
    as (_ & _ & Hw & _).
  apply Hw. vm_compute. discriminate.
Defined.



(** X21.  Settings are checked before the provider is looked up.  With a
    setting out of range the constructor raises [ValidationError] whatever
    the provider name is, known or not; [switch_provider] raises it too and
    leaves the facade exactly as it was: same provider, same provider name,
    same memory even with [keep_history = false]. *)
Theorem invalid_settings_are_rejected_first
    (d : Registry.t) (a : Client.InitArgs)
    (s : Client.State) (name api_key : string) (model base_url : option string)
    (keep_history : bool) (kwargs : Client.Kwargs) :
  (Config.valid (Client.init_settings a) = false ->
   exists msg, Client.__init__ d a = Raise (ValidationError msg))
  /\ (Config.valid (Client.switch_settings (Client.self s) api_key model base_url
                                          kwargs) = false ->
      exists msg,
        Client.switch_provider d name api_key model base_url keep_history kwargs s
        = (Raise (ValidationError msg), s)).
Proof.
  split; intros Hv.
  - unfold Client.__init__, Config.new. rewrite Hv. eauto.
  - rewrite switch_provider_steps. cbv zeta. unfold Config.new. rewrite Hv. eauto.
Qed.

Lemma invalid_settings_are_rejected_first_witness :
  (exists msg,
     Client.__init__ Registry.PROVIDERS
       {| Client.provider := "nowhere"; Client.api_key := "sk-test";
          Client.model := None; Client.base_url := None;
          Client.system_prompt := None; Client.temperature := 5;
          Client.max_tokens := None; Client.max_history := None;
          Client.timeout := 60; Client.max_retries := 3 |}
     = Raise (ValidationError msg))
  /\ (exists msg,
        Client.switch_provider Registry.PROVIDERS "deepseek" "sk-test" None None
          false
          {| Client.kw_temperature := None; Client.kw_max_tokens := Some (Some 0);
             Client.kw_timeout := None; Client.kw_max_retries := None;
             Client.kw_system_prompt := None |}
          (Client.mkState chatted_facade [])
        = (Raise (ValidationError msg), Client.mkState chatted_facade [])).
Proof.
  destruct (invalid_settings_are_rejected_first
              Registry.PROVIDERS
              {| Client.provider := "nowhere"; Client.api_key := "sk-test";
                 Client.model := None; Client.base_url := None;
                 Client.system_prompt := None; Client.temperature := 5;
                 Client.max_tokens := None; Client.max_history := None;
                 Client.timeout := 60; Client.max_retries := 3 |}
              (Client.mkState chatted_facade []) "deepseek" "sk-test" None None
              false
              {| Client.kw_temperature := None;
                 Client.kw_max_tokens := Some (Some 0);
                 Client.kw_timeout := None; Client.kw_max_retries := None;
                 Client.kw_system_prompt := None |})
    as (Hinit & Hswitch).
  split; [exact (Hinit eq_refl) | exact (Hswitch eq_refl)].
Defined.



(** X23.  A switch to a built-in provider that is carried out gives the new
    provider the settings [switch_provider] assembled: the new credential;
    the timeout, retries, temperature and token cap of the old provider and
    the directive of the memory, each replaced by the keyword argument of
    that name when one is given. *)
Theorem switch_carries_settings
    (s : Client.State) (name api_key : string) (model base_url : option string)
    (keep_history : bool) (kwargs : Client.Kwargs) :
  let old := Provider.config (Client._provider (Client.self s)) in
  let after :=
    Client.switch_provider Registry.PROVIDERS name api_key model base_url
                           keep_history kwargs s in
  after.1 = Ok tt ->
  carried (Provider.config (Client._provider (Client.self after.2)))
  = (api_key,
     default (Config.timeout old) (Client.kw_timeout kwargs),
     default (Config.max_retries old) (Client.kw_max_retries kwargs),
     default (Config.temperature old) (Client.kw_temperature kwargs),
     default (Config.max_tokens old) (Client.kw_max_tokens kwargs),
     default (Memory.system_prompt (Client._memory (Client.self s)))
             (Client.kw_system_prompt kwargs)).
Proof.
  intros old after. subst after. rewrite switch_provider_steps. cbv zeta.
  unfold Config.new.
  destruct (Config.valid _); [|discriminate].
  destruct (Client._create_provider _ _ _) as [p|e] eqn:Hp; [|discriminate].
  intros _. cbn. rewrite (create_provider_builtin_carried _ _ _ Hp). reflexivity.
Qed.

Lemma switch_carries_settings_witness :
  carried
    (Provider.config
       (Client._provider
          (Client.self
             (Client.switch_provider Registry.PROVIDERS "DeepSeek" "sk-2" None None
                                     true terse_kwargs
                                     (Client.mkState briefed_facade [])).2)))
  = ("sk-2", 60%Q, 3, 1%Q, None, Some "Be terse.").
Proof.
  exact (switch_carries_settings
           (Client.mkState briefed_facade []) "DeepSeek" "sk-2" None None true
           terse_kwargs eq_refl).
Defined.

(** X24.  The conversation is carried from turn to turn: on an
    OpenAI-compatible provider with an unbounded memory, after a [chat] that
    got a reply, the next [chat] sends everything the first one sent,
    followed by the assistant's reply and the new user message. *)
Theorem next_chat_sends_previous_turn
    (v v' : Vendor) (message message' reply : string) (s : Client.State) :
  openai_compatible (Provider.kind (Client._provider (Client.self s))) = true ->
  Memory._max_messages (Client._memory (Client.self s)) = None ->
  (Client.chat v message s).1 = Ok reply ->
  exists q q',
    wire_of_chat v message s = [ToOpenAI q]
    /\ wire_of_chat v' message' (Client.chat v message s).2 = [ToOpenAI q']
    /\ req_messages q'
       = req_messages q ++ [mkWire "assistant" reply; mkWire "user" message'].
Proof.
  intros Hk Hb Hok.
  destruct (wire_of_chat_openai v message s Hk) as (q & Hq & Hm).
  exists q.
  pose proof (chat_steps v message s) as Hsteps. cbv zeta in Hsteps.
  change (Client._memory (Client.with_memory (Client.self s) ?m)) with m in Hsteps.
  destruct (Provider.chat v _ _).2 as [r|e] eqn:Hcall;
    [|rewrite Hsteps in Hok; discriminate].
  rewrite Hsteps in Hok |- *. cbn in Hok. injection Hok as <-.
  destruct (wire_of_chat_openai v' message'
              {| Client.self :=
                   Client.with_memory
                     (Client.with_memory (Client.self s)
                        (Memory.add_user_message (Client._memory (Client.self s))
                                                 message))
                     (Memory.add_assistant_message
                        (Memory.add_user_message (Client._memory (Client.self s))
                                                 message)
                        (resp_content r));
                 Client.wire :=
                   Client.wire s
                   ++ (Provider.chat v (Client._provider (Client.self s))
                         (Memory.messages
                            (Memory.add_user_message
                               (Client._memory (Client.self s)) message))).1 |}
              Hk) as (q' & Hq' & Hm').
  exists q'. split; [exact Hq|]. split; [exact Hq'|].
  rewrite Hm', Hm. cbn [Client.self Client._provider Client._memory
                        Client.with_memory].
  unfold Provider._prepare_messages. rewrite <- app_assoc. f_equal.
  unfold Memory.messages, Memory.add_user_message, Memory.add_assistant_message.
  rewrite !add_message_unbounded
    by (rewrite ?add_message_max; exact Hb).
  rewrite !map_app. rewrite <- !app_assoc. reflexivity.
Qed.

Lemma next_chat_sends_previous_turn_witness :
  exists q q',
    wire_of_chat (scripted_vendor "Hello." []) "hi"
                 (Client.mkState briefed_facade []) = [ToOpenAI q]
    /\ wire_of_chat (scripted_vendor "Fine." []) "how are you?"
         (Client.chat (scripted_vendor "Hello." []) "hi"
                      (Client.mkState briefed_facade [])).2
       = [ToOpenAI q']
    /\ req_messages q'
       = req_messages q
         ++ [mkWire "assistant" "Hello."; mkWire "user" "how are you?"].
Proof.
  exact (next_chat_sends_previous_turn
           (scripted_vendor "Hello." []) (scripted_vendor "Fine." [])
           "hi" "how are you?" "Hello." (Client.mkState briefed_facade [])
           eq_refl eq_refl eq_refl).
Defined.

(** X25.  [clear_history] never raises and forgets the turns only: the
    history is empty afterwards, the provider, its name, the wire log and the
    memory's bound and directive are as before, and on an OpenAI-compatible
    provider the next [chat] sends the directive, if any, and the new user
    message, and nothing of the earlier conversation. *)
Theorem chat_after_clear_starts_over
    (v : Vendor) (message : string) (s : Client.State) :
  let cleared := Client.clear_history s in
  let u := Client.self s in
  let u' := Client.self cleared.2 in
  cleared.1 = Ok tt
  /\ Client.get_history u' = []
  /\ Client._provider u' = Client._provider u
  /\ Client._provider_name u' = Client._provider_name u
  /\ Client.wire cleared.2 = Client.wire s
  /\ Memory._max_messages (Client._memory u') = Memory._max_messages (Client._memory u)
  /\ Memory.system_prompt (Client._memory u') = Memory.system_prompt (Client._memory u)
  /\ (openai_compatible (Provider.kind (Client._provider u)) = true ->
      match Memory._max_messages (Client._memory u) with
      | Some b => 1 <= b
      | None => True
      end ->
      exists q,
        wire_of_chat v message cleared.2 = [ToOpenAI q]
        /\ req_messages q
           = if_truthy (Config.system_prompt (Provider.config (Client._provider u)))
                       (mkWire "system")
             ++ [mkWire "user" message]).
Proof.
  cbv zeta. repeat split.
  intros Hk Hb.
  destruct (wire_of_chat_openai v message (Client.clear_history s).2 Hk)
    as (q & Hq & Hm).
  exists q. split; [exact Hq|]. rewrite Hm.
  unfold Provider._prepare_messages. cbn. f_equal.
  unfold Memory.add_user_message.
  rewrite add_message_fits.
  - reflexivity.
  - cbn. destruct (Memory._max_messages _); [unfold len; simpl; lia | exact I].
Qed.

Lemma chat_after_clear_starts_over_witness :
  exists q,
    wire_of_chat (scripted_vendor "Hello." []) "again"
                 (Client.clear_history (Client.mkState chatted_facade [])).2
    = [ToOpenAI q]
    /\ req_messages q = [mkWire "user" "again"].
Proof.
  destruct (chat_after_clear_starts_over
              (scripted_vendor "Hello." []) "again"
              (Client.mkState chatted_facade []))
    as (_ & _ & _ & _ & _ & _ & _ & Hchat).
  exact (Hchat eq_refl I).
Defined.

(** X26.  The history view loses nothing: every entry's role is one of
    ["system"], ["user"] and ["assistant"], and two facades with the same
    history store the same messages. *)
Theorem history_is_faithful (u u' : Client.UniAI) :
  Forall (fun w => wire_role w = "system" \/ wire_role w = "user"
                   \/ wire_role w = "assistant")
         (Client.get_history u)
  /\ (Client.get_history u = Client.get_history u' ->
      Memory.messages (Client._memory u) = Memory.messages (Client._memory u')).
Proof.
  unfold Client.get_history. split.
  - apply Forall_map, Forall_forall. intros [[] c] _; cbn; auto.
  - generalize (Memory.messages (Client._memory u')).
    induction (Memory.messages (Client._memory u)) as [|[r c] l IH];
      intros [|[r' c'] l'] H; try discriminate; [reflexivity|].
    cbn in H. injection H as Hr Hc Hl. f_equal; [|apply IH, Hl].
    subst c'. destruct r, r'; try discriminate; reflexivity.
Qed.

Lemma history_is_faithful_witness :
  Memory.messages (Client._memory chatted_facade)
  = Memory.messages
      (Client._memory
         (Client.self
            (Client.chat (scripted_vendor "Hello." []) "hi"
                         (Client.mkState briefed_facade [])).2)).
Proof.
  apply (history_is_faithful chatted_facade
           (Client.self
              (Client.chat (scripted_vendor "Hello." []) "hi"
                           (Client.mkState briefed_facade [])).2)).
  reflexivity.
Defined.

(** X27.  The manual rollback works: after a [chat] or a [stream] that
    raised, one [pop_last] on the facade's memory returns the user message of
    the failed call and puts the memory back exactly as it was before the
    call, provided the append evicted nothing (no bound, or fewer stored
    messages than the bound before the call). *)
Theorem pop_last_rolls_back_failed_call
    (v : Vendor) (message : string) (s : Client.State) :
  let m0 := Client._memory (Client.self s) in
  match Memory._max_messages m0 with
  | Some b => Memory.__len__ m0 < b
  | None => True
  end ->
  (forall e, (Client.chat v message s).1 = Raise e ->
             Memory.pop_last (Client._memory (Client.self (Client.chat v message s).2))
             = (Some (mkMessage USER message), m0))
  /\ (forall e, raised (Client.stream v message s).1 = Some e ->
                Memory.pop_last
                  (Client._memory (Client.self (Client.stream v message s).2))
                = (Some (mkMessage USER message), m0)).
Proof.
  intros m0 Hfit. split; intros e.
  - rewrite chat_steps. cbv zeta.
    destruct (Provider.chat v _ _).2; [discriminate|]. intros _. cbn.
    apply pop_last_after_fitting_append, Hfit.
  - rewrite stream_steps. cbv zeta.
    destruct (raised (Provider.stream_chat v _ _).2); [|discriminate]. intros _. cbn.
    apply pop_last_after_fitting_append, Hfit.
Qed.

Lemma pop_last_rolls_back_failed_call_witness :
  Memory.pop_last
    (Client._memory
       (Client.self (Client.chat unreachable_vendor "lost"
                                 (Client.mkState chatted_facade [])).2))
  = (Some (mkMessage USER "lost"), Client._memory chatted_facade)
  /\ Memory.pop_last
       (Client._memory
          (Client.self
             (Client.stream (breaking_vendor (take 2 hello_stream) connection_refused)
                            "lost" (Client.mkState chatted_facade [])).2))
     = (Some (mkMessage USER "lost"), Client._memory chatted_facade).
Proof.
  destruct (pop_last_rolls_back_failed_call
              unreachable_vendor "lost" (Client.mkState chatted_facade []) I)
    as (Hchat & _).
  destruct (pop_last_rolls_back_failed_call
              (breaking_vendor (take 2 hello_stream) connection_refused) "lost"
              (Client.mkState chatted_facade []) I)
    as (_ & Hstream).
  split.
  - exact (Hchat _ eq_refl).
  - exact (Hstream _ eq_refl).
Defined.
